(** * The participation bot (app.py): ledger, webhook and report

    A shallow embedding of [src/app.py].  The SQLite table
    [participations] is a list of rows in rowid order, Python [str] values
    are lists of Unicode code points, and the effects of the handlers (the
    table, the messages handed to the Twilio client, the files written
    under [reports/]) are threaded through an explicit [World]. *)

From Stdlib Require Import Ascii String.
From Stdlib Require Import List Bool Arith ZArith NArith Lia.
From Stdlib Require Import Sorted Permutation.
From Stdlib Require Decimal DecimalFacts DecimalPos DecimalN.
Import ListNotations.

Set Implicit Arguments.

(** ** Python text *)

Module Str.

(** A Python [str] is a sequence of code points. *)
Definition str := list N.

(** Decoding of the UTF-8 bytes of a literal of this file into code
    points, so that the literals of app.py can be written as they are. *)
Fixpoint utf8_decode (bs : list N) : str :=
  match bs with
  | [] => []
  | b0 :: t =>
      if (b0 <? 128)%N then b0 :: utf8_decode t
      else if (b0 <? 224)%N then
        match t with
        | b1 :: t' => ((b0 - 192) * 64 + (b1 - 128))%N :: utf8_decode t'
        | _ => []
        end
      else if (b0 <? 240)%N then
        match t with
        | b1 :: b2 :: t' =>
            ((b0 - 224) * 4096 + (b1 - 128) * 64 + (b2 - 128))%N
              :: utf8_decode t'
        | _ => []
        end
      else
        match t with
        | b1 :: b2 :: b3 :: t' =>
            ((b0 - 240) * 262144 + (b1 - 128) * 4096
             + (b2 - 128) * 64 + (b3 - 128))%N :: utf8_decode t'
        | _ => []
        end
  end.

Definition py (s : string) : str :=
  utf8_decode (map N_of_ascii (list_ascii_of_string s)).

(** [str.isspace] for one character: the code points CPython treats as
    whitespace ([_PyUnicode_IsWhitespace]). *)
Definition isspace (c : N) : bool :=
  ((9 <=? c) && (c <=? 13) || (28 <=? c) && (c <=? 32)
   || (c =? 133) || (c =? 160) || (c =? 5760)
   || (8192 <=? c) && (c <=? 8202)
   || (c =? 8232) || (c =? 8233) || (c =? 8239) || (c =? 8287)
   || (c =? 12288))%N.

(** [s.lstrip()], [s.rstrip()], [s.strip()]. *)
Fixpoint lstrip (s : str) : str :=
  match s with
  | c :: t => if isspace c then lstrip t else s
  | [] => []
  end.

Definition rstrip (s : str) : str := rev (lstrip (rev s)).

Definition strip (s : str) : str := rstrip (lstrip s).

(** [s.startswith(p)] and [s.startswith((p1, p2, ...))]. *)
Fixpoint startswith (s p : str) : bool :=
  match p, s with
  | [], _ => true
  | _ :: _, [] => false
  | a :: p', b :: s' => (a =? b)%N && startswith s' p'
  end.

Definition startswith_any (s : str) (ps : list str) : bool :=
  existsb (startswith s) ps.

(** [c in s] for a one-character [c]. *)
Definition contains (c : N) (s : str) : bool := existsb (N.eqb c) s.

(** [s.split(c, 1)]: at most one cut, at the first [c]. *)
Fixpoint split1 (c : N) (s : str) : list str :=
  match s with
  | [] => [[]]
  | a :: t =>
      if (a =? c)%N then [[]; t]
      else match split1 c t with
           | h :: r => (a :: h) :: r
           | [] => [[a]]
           end
  end.

(** [s.split()]: cut at runs of whitespace, no empty parts.  [cur] is the
    part being read, reversed. *)
Fixpoint split_ws_aux (cur : str) (s : str) : list str :=
  match s with
  | [] => match cur with [] => [] | _ => [rev cur] end
  | c :: t =>
      if isspace c then
        match cur with
        | [] => split_ws_aux [] t
        | _ => rev cur :: split_ws_aux [] t
        end
      else split_ws_aux (c :: cur) t
  end.

Definition split_ws (s : str) : list str := split_ws_aux [] s.

(** [sep.join(parts)]. *)
Fixpoint join (sep : str) (parts : list str) : str :=
  match parts with
  | [] => []
  | [p] => p
  | p :: rest => p ++ sep ++ join sep rest
  end.

(** [a == b] on text. *)
Fixpoint eqb (a b : str) : bool :=
  match a, b with
  | [], [] => true
  | x :: a', y :: b' => (x =? y)%N && eqb a' b'
  | _, _ => false
  end.

(** Comparison of two texts code point by code point: Python's [<] on
    [str], and SQLite's BINARY collation on the UTF-8 bytes, which orders
    texts the same way. *)
Fixpoint compare (a b : str) : comparison :=
  match a, b with
  | [], [] => Eq
  | [], _ :: _ => Lt
  | _ :: _, [] => Gt
  | x :: a', y :: b' =>
      match (x ?= y)%N with
      | Eq => compare a' b'
      | c => c
      end
  end.

Definition ltb (a b : str) : bool :=
  match compare a b with Lt => true | _ => false end.

Definition lt (a b : str) : Prop := compare a b = Lt.

(** Truth value of a text: the empty text is false. *)
Definition truthy (s : str) : bool :=
  match s with [] => false | _ => true end.

(** [str(n)] for a non-negative integer. *)
Fixpoint digits_of_uint (u : Decimal.uint) : str :=
  match u with
  | Decimal.Nil => []
  | Decimal.D0 u => 48%N :: digits_of_uint u
  | Decimal.D1 u => 49%N :: digits_of_uint u
  | Decimal.D2 u => 50%N :: digits_of_uint u
  | Decimal.D3 u => 51%N :: digits_of_uint u
  | Decimal.D4 u => 52%N :: digits_of_uint u
  | Decimal.D5 u => 53%N :: digits_of_uint u
  | Decimal.D6 u => 54%N :: digits_of_uint u
  | Decimal.D7 u => 55%N :: digits_of_uint u
  | Decimal.D8 u => 56%N :: digits_of_uint u
  | Decimal.D9 u => 57%N :: digits_of_uint u
  end.

Definition of_N (n : N) : str := digits_of_uint (N.to_uint n).

(** ["%0<w>d" % n]: at least [w] digits, filled with zeros on the left. *)
Definition zfill (w : nat) (n : N) : str :=
  let d := of_N n in repeat 48%N (w - length d) ++ d.

Definition isdigit (c : N) : bool := ((48 <=? c) && (c <=? 57))%N.

(** The number a run of ASCII digits denotes. *)
Definition to_N (s : str) : N :=
  fold_left (fun acc c => (acc * 10 + (c - 48))%N) s 0%N.

End Str.

Abbreviation str := Str.str.
Abbreviation py := Str.py.

(** ** Timestamps *)

(** A naive [datetime.datetime], as [datetime.now()] returns it. *)
Record datetime := mkDatetime {
  year : N; month : N; day : N;
  hour : N; minute : N; second : N; microsecond : N
}.

Module Datetime.

Definition is_leap (y : N) : bool :=
  ((y mod 4 =? 0) && (negb (y mod 100 =? 0) || (y mod 400 =? 0)))%N.

Definition days_in_month (y m : N) : N :=
  match m with
  | 2 => if is_leap y then 29 else 28
  | 4 | 6 | 9 | 11 => 30
  | _ => 31
  end%N.

(** The values the [datetime] constructor accepts; any other raise
    [ValueError]. *)
Definition valid (d : datetime) : bool :=
  ((1 <=? year d) && (year d <=? 9999)
   && (1 <=? month d) && (month d <=? 12)
   && (1 <=? day d) && (day d <=? days_in_month (year d) (month d))
   && (hour d <=? 23) && (minute d <=? 59) && (second d <=? 59)
   && (microsecond d <=? 999999))%N.

(** [d.isoformat(" ")]: the fraction is written only when the
    microsecond is not zero. *)
Definition isoformat (d : datetime) : str :=
  Str.zfill 4 (year d) ++ py "-" ++ Str.zfill 2 (month d) ++ py "-"
  ++ Str.zfill 2 (day d) ++ py " "
  ++ Str.zfill 2 (hour d) ++ py ":" ++ Str.zfill 2 (minute d) ++ py ":"
  ++ Str.zfill 2 (second d)
  ++ (if (microsecond d =? 0)%N then []
      else py "." ++ Str.zfill 6 (microsecond d)).

(** The default adapter of the [sqlite3] module for a [datetime]
    parameter: the text bound to the statement. *)
Definition adapt_datetime (d : datetime) : str := isoformat d.

(** Up to [n] leading ASCII digits of [s], and what follows them. *)
Fixpoint take_digits (n : nat) (s : str) : str * str :=
  match n, s with
  | S n', c :: t =>
      if Str.isdigit c then
        let (ds, rest) := take_digits n' t in (c :: ds, rest)
      else ([], s)
  | _, _ => ([], s)
  end.

(** A numeric field of the format: one or two digits ([w] for [%Y] and
    [%f]), with a value between [lo] and [hi]. *)
Definition field (wmin wmax : nat) (lo hi : N) (s : str) : option (N * str) :=
  let (ds, rest) := take_digits wmax s in
  if (wmin <=? length ds)%nat && (lo <=? Str.to_N ds)%N && (Str.to_N ds <=? hi)%N
  then Some (Str.to_N ds, rest) else None.

(** A literal character of the format. *)
Definition lit (c : N) (s : str) : option str :=
  match s with
  | a :: t => if (a =? c)%N then Some t else None
  | [] => None
  end.

(** A blank of the format: one or more whitespace characters. *)
Definition blanks (s : str) : option str :=
  match s with
  | a :: t => if Str.isspace a then Some (Str.lstrip t) else None
  | [] => None
  end.

(** The day of the month also reads as a space and one digit. *)
Definition field_day (s : str) : option (N * str) :=
  match s with
  | 32%N :: t => field 1 1 1 9 t
  | _ => field 1 2 1 31 s
  end.

(** [%f]: one to six digits, read as a fraction of a second. *)
Definition field_fraction (s : str) : option (N * str) :=
  let (ds, rest) := take_digits 6 s in
  match ds with
  | [] => None
  | _ => Some (Str.to_N (ds ++ repeat 48%N (6 - length ds)), rest)
  end.

(** [datetime.strptime(s, '%Y-%m-%d %H:%M:%S.%f')]; [None] is the
    [ValueError] it raises when [s] does not have that form. *)
Definition strptime (s : str) : option datetime :=
  match field 4 4 0 9999 s with None => None | Some (Y, s) =>
  match lit 45 s with None => None | Some s =>
  match field 1 2 1 12 s with None => None | Some (m, s) =>
  match lit 45 s with None => None | Some s =>
  match field_day s with None => None | Some (d, s) =>
  match blanks s with None => None | Some s =>
  match field 1 2 0 23 s with None => None | Some (H, s) =>
  match lit 58 s with None => None | Some s =>
  match field 1 2 0 59 s with None => None | Some (M, s) =>
  match lit 58 s with None => None | Some s =>
  match field 1 2 0 61 s with None => None | Some (sec, s) =>
  match lit 46 s with None => None | Some s =>
  match field_fraction s with None => None | Some (f, s) =>
  match s with
  | [] =>
      let d := mkDatetime Y m d H M sec f in
      if valid d then Some d else None
  | _ :: _ => None
  end end end end end end end end end end end end end end.

(** The same reading for the format ['%Y-%m-%d %H:%M:%S'], without a
    fraction. *)
Definition strptime_seconds (s : str) : option datetime :=
  match field 4 4 0 9999 s with None => None | Some (Y, s) =>
  match lit 45 s with None => None | Some s =>
  match field 1 2 1 12 s with None => None | Some (m, s) =>
  match lit 45 s with None => None | Some s =>
  match field_day s with None => None | Some (d, s) =>
  match blanks s with None => None | Some s =>
  match field 1 2 0 23 s with None => None | Some (H, s) =>
  match lit 58 s with None => None | Some s =>
  match field 1 2 0 59 s with None => None | Some (M, s) =>
  match lit 58 s with None => None | Some s =>
  match field 1 2 0 61 s with None => None | Some (sec, s) =>
  match s with
  | [] =>
      let d := mkDatetime Y m d H M sec 0 in
      if valid d then Some d else None
  | _ :: _ => None
  end end end end end end end end end end end end.

(** [d.strftime('%d/%m/%Y')], [d.strftime('%d/%m %H:%M')] and
    [d.strftime('%d/%m/%Y %H:%M')]. *)
Definition strftime_dmY (d : datetime) : str :=
  Str.zfill 2 (day d) ++ py "/" ++ Str.zfill 2 (month d) ++ py "/"
  ++ Str.of_N (year d).

Definition strftime_dm_HM (d : datetime) : str :=
  Str.zfill 2 (day d) ++ py "/" ++ Str.zfill 2 (month d) ++ py " "
  ++ Str.zfill 2 (hour d) ++ py ":" ++ Str.zfill 2 (minute d).

Definition strftime_dmY_HM (d : datetime) : str :=
  strftime_dmY d ++ py " " ++ Str.zfill 2 (hour d) ++ py ":"
  ++ Str.zfill 2 (minute d).

End Datetime.

(** ** The table [participations] *)

(** One row of the table; [video_title] is the only column that may be
    NULL. *)
Record Row := mkRow {
  id : Z;
  whatsapp_number : str;
  profile_name : str;
  participation_date : str;
  video_title : option str
}.

(** The database file: the rows of [participations] in rowid order, and
    the counter SQLite keeps for an AUTOINCREMENT key (the largest id
    ever given out). *)
Record Database := mkDatabase {
  participations : list Row;
  sqlite_sequence : Z
}.

(** The file after [init_db] on a fresh file: the table exists from
    start-up on, with no row. *)
Definition empty_db : Database := mkDatabase [] 0.

(** [INSERT INTO participations ...] with the current time [now]. *)
Definition add_participation (now : datetime)
    (number name : str) (title : option str) (db : Database) : Database :=
  let new_id := (sqlite_sequence db + 1)%Z in
  mkDatabase
    (participations db
       ++ [mkRow new_id number name (Datetime.adapt_datetime now) title])
    new_id.

(** [WHERE whatsapp_number = ?]. *)
Definition where_whatsapp_number (number : str) (rows : list Row) : list Row :=
  filter (fun r => Str.eqb (whatsapp_number r) number) rows.

(** [ORDER BY participation_date DESC], as SQLite's sorter runs it: rows
    come in scan order, and a row goes behind the rows whose date is
    greater and in front of the first row whose date is not: rows with
    equal dates keep their scan order. *)
Fixpoint insert_desc (r : Row) (sorted : list Row) : list Row :=
  match sorted with
  | [] => [r]
  | h :: t =>
      if Str.ltb (participation_date r) (participation_date h)
      then h :: insert_desc r t
      else r :: sorted
  end.

Definition order_by_date_desc (rows : list Row) : list Row :=
  fold_right insert_desc [] rows.

(** The rows the SELECT of [get_user_history] visits, in order. *)
Definition user_history_rows (number : str) (db : Database) : list Row :=
  order_by_date_desc (where_whatsapp_number number (participations db)).

(** [get_user_history]: the columns [participation_date, video_title]. *)
Definition get_user_history (number : str) (db : Database)
  : list (str * option str) :=
  map (fun r => (participation_date r, video_title r))
      (user_history_rows number db).

(** The rows the SELECT of [get_last_10_records] visits ([LIMIT 10]). *)
Definition last_10_rows (db : Database) : list Row :=
  firstn 10 (order_by_date_desc (participations db)).

(** [get_last_10_records]: the columns
    [profile_name, participation_date, video_title]. *)
Definition get_last_10_records (db : Database)
  : list (str * str * option str) :=
  map (fun r => (profile_name r, participation_date r, video_title r))
      (last_10_rows db).

(** [DELETE FROM participations WHERE id = ?]. *)
Definition delete_where_id (i : Z) (rows : list Row) : list Row :=
  filter (fun r => negb (id r =? i)%Z) rows.

(** [delete_last_user_record]: the id of the first row of the sender
    ([LIMIT 1]), then the DELETE of that id. *)
Definition delete_last_user_record (number : str) (db : Database)
  : Database * bool :=
  match firstn 1 (user_history_rows number db) with
  | last_record :: _ =>
      (mkDatabase (delete_where_id (id last_record) (participations db))
                  (sqlite_sequence db), true)
  | [] => (db, false)
  end.

(** ** The outside world *)

(** A message handed to [client.messages.create]. *)
Record Message := mkMessage {
  from_ : option str;
  body : str;
  to : option str
}.

(** One row of [report_summary]. *)
Record SummaryRow := mkSummaryRow {
  group_name : str;
  total_participations : nat;
  dates : str;
  videos : str
}.

(** What [to_csv] and [to_excel] are given to write. *)
Inductive FileContent :=
| CsvFile (table : list SummaryRow)
| XlsxFile (table : list SummaryRow).

(** Everything the handlers read and change: the database file, the
    messages sent through Twilio (oldest first) and the files on disk. *)
Record World := mkWorld {
  database : Database;
  sent : list Message;
  files : list (str * FileContent)
}.

Definition set_database (db : Database) (w : World) : World :=
  mkWorld db (sent w) (files w).

Definition messages_create (m : Message) (w : World) : World :=
  mkWorld (database w) (sent w ++ [m]) (files w).

(** Writing a file replaces the one of the same path. *)
Definition write_file (path : str) (c : FileContent) (w : World) : World :=
  mkWorld (database w) (sent w)
          ((path, c) :: filter (fun f => negb (Str.eqb (fst f) path)) (files w)).

(** The settings of the process: the environment variables read at
    start-up ([None] when unset), the working directory, against which the
    relative paths of [open] and [os.makedirs] resolve, and the root path
    of the Flask application (the directory of app.py), against which
    [send_from_directory] resolves. *)
Record Config := mkConfig {
  TWILIO_PHONE_NUMBER : option str;
  ADMIN_PHONE_NUMBER : option str;
  cwd : str;
  root_path : str
}.

(** The file of relative path [rel] under the directory [base]. *)
Definition in_dir (base rel : str) : str := base ++ py "/" ++ rel.

(** The form fields of a POST to [/whatsapp], and the URL of the host. *)
Record Request := mkRequest {
  Body : option str;
  From : option str;
  ProfileName : option str;
  host_url : str
}.

(** [dict.get(key, default)]. *)
Definition get (v : option str) (default : str) : str :=
  match v with Some s => s | None => default end.

Definition nl : str := [10%N].

Definition colon : N := 58%N.

(** ** The report and the webhook *)

Section Frame.

(** The display form line 126 gives one stored date, once the column has
    been read. *)
Variable display_date : str -> str.

(** Line 126: the date column is replaced by its display form. *)
Definition display_row (r : Row) : Row :=
  mkRow (id r) (whatsapp_number r) (profile_name r)
        (display_date (participation_date r)) (video_title r).

Definition format_dates (df : list Row) : list Row := map display_row df.

(** The keys of [groupby('profile_name')]: each name once, sorted. *)
Fixpoint insert_key (k : str) (ks : list str) : list str :=
  match ks with
  | [] => [k]
  | h :: t =>
      match Str.compare k h with
      | Lt => k :: ks
      | Eq => ks
      | Gt => h :: insert_key k t
      end
  end.

Definition group_keys (df : list Row) : list str :=
  fold_right insert_key [] (map profile_name df).

(** The rows of the group of key [k], in the order of the frame. *)
Definition group_rows (k : str) (df : list Row) : list Row :=
  filter (fun r => Str.eqb (profile_name r) k) df.

Definition groupby_profile_name (df : list Row) : list (str * list Row) :=
  map (fun k => (k, group_rows k df)) (group_keys df).

(** [x.dropna()] on a column of [video_title]. *)
Fixpoint dropna (x : list (option str)) : list str :=
  match x with
  | [] => []
  | Some t :: r => t :: dropna r
  | None :: r => dropna r
  end.

(** The three aggregations of one group. *)
Definition agg (g : str * list Row) : SummaryRow :=
  mkSummaryRow (fst g)
    (length (map id (snd g)))
    (Str.join (py " | ") (map participation_date (snd g)))
    (Str.join (py " | ") (dropna (map video_title (snd g)))).

Definition report_summary (df : list Row) : list SummaryRow :=
  map agg (groupby_profile_name (format_dates df)).

End Frame.

(** How a run of the report ends: it completes, leaving a world, or line
    126 raises [ValueError] before anything is written or sent. *)
Inductive ReportRun :=
| Completed (w : World)
| RaisedValueError.

Section App.

(** [str.lower]: the case mapping of the Unicode tables. *)
Variable lower : str -> str.

(** [pd.to_datetime(column).dt.strftime('%d/%m/%Y %H:%M')] of line 126.
    pandas reads the whole column in one form: it raises [ValueError]
    ([None]) when a text does not fit, and otherwise gives each stored
    date its display form. *)
Variable to_datetime_strftime : list str -> option (str -> str).

Variable cfg : Config.

Definition report_path_csv : str := py "reports/relatorio_participacao.csv".
Definition report_path_xlsx : str := py "reports/relatorio_participacao.xlsx".

Definition no_records_body : str :=
  py "ℹ️ Nenhum registro de participação encontrado para gerar o relatório.".

Definition summary_line (row : SummaryRow) : str :=
  py "*" ++ group_name row ++ py "*: "
  ++ Str.of_N (N.of_nat (total_participations row)) ++ py " participações" ++ nl.

Definition summary_message (base_url : str) (summary : list SummaryRow) : str :=
  py "📊 *Relatório de Participação*" ++ nl ++ nl
  ++ concat (map summary_line summary)
  ++ nl ++ py "Baixe o relatório completo em Excel aqui:" ++ nl
  ++ base_url ++ py "reports/relatorio_participacao.xlsx".

(** [generate_and_send_report(on_demand)]; [request] is the request being
    served, if any. *)
Definition generate_and_send_report
    (request : option Request) (on_demand : bool) (w : World) : ReportRun :=
  let df := participations (database w) in
  match df with
  | [] =>
      if on_demand then
        Completed
          (messages_create
             (mkMessage (TWILIO_PHONE_NUMBER cfg) no_records_body
                        (ADMIN_PHONE_NUMBER cfg)) w)
      else Completed w
  | _ :: _ =>
      match to_datetime_strftime (map participation_date df) with
      | None => RaisedValueError
      | Some display_date =>
          let summary := report_summary display_date df in
          let w :=
            write_file (in_dir (cwd cfg) report_path_csv) (CsvFile summary) w in
          let w :=
            write_file (in_dir (cwd cfg) report_path_xlsx) (XlsxFile summary) w in
          let base_url :=
            match request with
            | Some r => host_url r
            | None => py "https://SEU_USUARIO.pythonanywhere.com/"
            end in
          Completed
            (messages_create
               (mkMessage (TWILIO_PHONE_NUMBER cfg)
                          (summary_message base_url summary)
                          (ADMIN_PHONE_NUMBER cfg)) w)
      end
  end.

(** The job the scheduler runs on days 1 and 15. *)
Definition scheduled_report (w : World) : ReportRun :=
  generate_and_send_report None false w.

(** What the route returns: a TwiML message, the empty 204 answer, or the
    error answer of Flask when the handler raised. *)
Inductive Response :=
| Twiml (message : str)
| NoContent204
| InternalServerError.

(** Lines 242-247. *)
Definition send_response (response_msg : str) : Response :=
  if Str.truthy response_msg then Twiml response_msg else NoContent204.

Definition record_triggers : list str :=
  [py "participei"; py "gravei"; py "/participar"].

Definition confirmation (profile_name : str) : str :=
  py "✅ Olá, " ++ profile_name
  ++ py "! Sua participação foi registrada com sucesso!".

(** [x if title else ""]: a NULL title and an empty one are both false. *)
Definition title_truthy (title : option str) : bool :=
  match title with Some t => Str.truthy t | None => false end.

Definition history_title_info (title : option str) : str :=
  if title_truthy title then py " (Vídeo: " ++ get title [] ++ py ")" else [].

Definition listing_title_info (title : option str) : str :=
  if title_truthy title then py " (" ++ get title [] ++ py ")" else [].

(** The loop of lines 198-201; [None] when [strptime] raises. *)
Fixpoint history_lines (records : list (str * option str)) : option str :=
  match records with
  | [] => Some []
  | (date, title) :: rest =>
      match Datetime.strptime date with
      | None => None
      | Some d =>
          match history_lines rest with
          | None => None
          | Some more =>
              Some (py "- " ++ Datetime.strftime_dmY d
                    ++ history_title_info title ++ nl ++ more)
          end
      end
  end.

(** The loop of lines 224-227. *)
Fixpoint listing_lines (records : list (str * str * option str)) : option str :=
  match records with
  | [] => Some []
  | (name, date, title) :: rest =>
      match Datetime.strptime date with
      | None => None
      | Some d =>
          match listing_lines rest with
          | None => None
          | Some more =>
              Some (py "- " ++ name ++ py " em " ++ Datetime.strftime_dm_HM d
                    ++ listing_title_info title ++ nl ++ more)
          end
      end
  end.

Definition history_header (profile_name : str) (n : nat) : str :=
  py "Olá, " ++ profile_name ++ py "! Você participou *"
  ++ Str.of_N (N.of_nat n) ++ py "* vez(es)." ++ nl ++ nl ++ py "*Datas*:" ++ nl.

Definition help_text : str :=
  py "🤖 *Comandos do Bot de Gravações*" ++ nl ++ nl
  ++ py "*/participar* - Registra sua participação na gravação de hoje." ++ nl
  ++ py "_Ex: `Participei: vídeo de highlights`_" ++ nl ++ nl
  ++ py "*/meu historico* - Mostra todas as suas participações." ++ nl ++ nl
  ++ py "*/ajuda* - Mostra esta mensagem.".

Definition is_admin (from_number : str) : bool :=
  match ADMIN_PHONE_NUMBER cfg with
  | Some a => Str.eqb from_number a
  | None => false
  end.

(** [whatsapp_webhook], with the clock reading [now] that
    [add_participation] would take. *)
Definition whatsapp_webhook (now : datetime) (req : Request) (w : World)
  : World * Response :=
  let incoming_msg := Str.strip (get (Body req) []) in
  let from_number := get (From req) [] in
  let profile_name := get (ProfileName req) from_number in
  let msg_lower := lower incoming_msg in
  if Str.startswith_any msg_lower record_triggers then
    let video_title :=
      if Str.contains colon incoming_msg
      then Some (Str.strip (nth 1 (Str.split1 colon incoming_msg) []))
      else None in
    (set_database
       (add_participation now from_number profile_name video_title (database w))
       w,
     send_response (confirmation profile_name))
  else if Str.eqb msg_lower (py "/meu historico") then
    let records := get_user_history from_number (database w) in
    match records with
    | [] => (w, send_response
                  (py "Você ainda não tem nenhuma participação registrada."))
    | _ :: _ =>
        match history_lines records with
        | Some lines =>
            (w, send_response
                  (history_header profile_name (length records) ++ lines))
        | None => (w, InternalServerError)
        end
    end
  else if Str.eqb msg_lower (py "/ajuda") then (w, send_response help_text)
  else if is_admin from_number then
    if Str.eqb msg_lower (py "/relatorio agora") then
      match generate_and_send_report (Some req) true w with
      | Completed w' => (w', NoContent204)
      | RaisedValueError => (w, InternalServerError)
      end
    else if Str.eqb msg_lower (py "/ultimos registros") then
      let records := get_last_10_records (database w) in
      match records with
      | [] => (w, send_response (py "Nenhum registro encontrado."))
      | _ :: _ =>
          match listing_lines records with
          | Some lines =>
              (w, send_response
                    (py "*Últimos 10 Registros*:" ++ nl ++ nl ++ lines))
          | None => (w, InternalServerError)
          end
      end
    else if Str.startswith msg_lower (py "/corrigir ultimo") then
      let parts := Str.split_ws msg_lower in
      if (2 <? length parts)%nat then (w, send_response [])
      else
        let (db', deleted) := delete_last_user_record from_number (database w) in
        if deleted then
          (set_database db' w,
           send_response (py "✅ Seu último registro de participação foi removido. Por favor, registre novamente se necessário."))
        else
          (w, send_response (py "❌ Você não possui registros para corrigir."))
    else (w, send_response [])
  else (w, send_response []).

(** The commands of the specification (section 4.2), read off the same
    text and sender: used to say which messages are recognised. *)
Inductive Command :=
| RecordParticipation (label : option str)
| ShowMyHistory
| ShowHelp
| ShowLastN
| UndoLastForSender
| RunReportNow
| Unrecognized.

Definition spec_command (text sender : str) : Command :=
  let normalized := lower (Str.strip text) in
  if Str.startswith_any normalized record_triggers then
    RecordParticipation
      (if Str.contains colon (Str.strip text)
       then Some (Str.strip (nth 1 (Str.split1 colon (Str.strip text)) []))
       else None)
  else if Str.eqb normalized (py "/meu historico") then ShowMyHistory
  else if Str.eqb normalized (py "/ajuda") then ShowHelp
  else if is_admin sender then
    if Str.eqb normalized (py "/relatorio agora") then RunReportNow
    else if Str.eqb normalized (py "/ultimos registros") then ShowLastN
    else if Str.startswith normalized (py "/corrigir ultimo")
    then UndoLastForSender
    else Unrecognized
  else Unrecognized.

End App.

(** [str.lower] on ASCII text, where it only moves [A-Z] to [a-z]. *)
Definition ascii_lower (s : str) : str :=
  map (fun c => if ((65 <=? c) && (c <=? 90))%N then (c + 32)%N else c) s.

(** A stand-in for the display form of a date in examples: the stored
    text itself. *)
Definition stored_text (s : str) : str := s.

(** The reading of line 126 as pandas 2 does it on the texts that
    [add_participation] stores: the form (with a fraction of a second or
    without) is taken from the first text, a text of the other form raises
    [ValueError], and each text is shown as day/month/year hour:minute. *)
Definition read_as (fraction : bool) (s : str) : option datetime :=
  if fraction then Datetime.strptime s else Datetime.strptime_seconds s.

Definition display_as (fraction : bool) (s : str) : str :=
  match read_as fraction s with
  | Some d => Datetime.strftime_dmY_HM d
  | None => s
  end.

Definition pandas_dates (column : list str) : option (str -> str) :=
  match column with
  | [] => Some stored_text
  | first :: _ =>
      let fraction := Str.contains 46%N first in
      if forallb (fun s => match read_as fraction s with
                           | Some _ => true
                           | None => false
                           end) column
      then Some (display_as fraction)
      else None
  end.

(** ** Predicates of the statements *)

Abbreviation date := participation_date.

(** The invariant of the table: rows lie in increasing id order (the
    key is unique) and no id exceeds the AUTOINCREMENT counter. *)
Definition id_lt (a b : Row) : Prop := (id a < id b)%Z.

Definition wf (db : Database) : Prop :=
  StronglySorted id_lt (participations db)
  /\ Forall (fun r => (0 < id r <= sqlite_sequence db)%Z) (participations db)
  /\ (0 <= sqlite_sequence db)%Z.

(** [a] is listed before [b]: a later date, or the same date and a
    smaller id. *)
Definition before (a b : Row) : Prop :=
  Str.lt (date b) (date a) \/ (date a = date b /\ (id a < id b)%Z).

(** No row of the list has a later date than [r]. *)
Definition newest_in (r : Row) (rows : list Row) : Prop :=
  forall x, In x rows -> Str.ltb (date r) (date x) = false.

(** Among the rows of the list with the date of [r], [r] has the
    smallest id. *)
Definition first_of_its_date (r : Row) (rows : list Row) : Prop :=
  forall x, In x rows -> date x = date r -> (id r <= id x)%Z.

(** [r] is the newest record of the sender as the specification orders
    records: every other record of the sender has an earlier date, or the
    same date and a smaller id. *)
Definition newest_of_sender (number : str) (rows : list Row) (r : Row) : Prop :=
  In r rows /\ whatsapp_number r = number
  /\ forall x, In x rows -> whatsapp_number x = number -> x <> r ->
       Str.lt (date x) (date r) \/ (date x = date r /\ (id x < id r)%Z).

(** The database files the handlers can produce. *)
Inductive reachable : Database -> Prop :=
| reachable_empty : reachable empty_db
| reachable_add now number name title db :
    reachable db -> reachable (add_participation now number name title db)
| reachable_delete number db :
    reachable db -> reachable (fst (delete_last_user_record number db)).

(** Rows of equal date are listed by decreasing id. *)
Definition ties_id_descending (rows : list Row) : Prop :=
  forall i j a b, (i < j)%nat ->
    nth_error rows i = Some a -> nth_error rows j = Some b ->
    date a = date b -> (id b < id a)%Z.

(** The order of two instants: field by field, from the year down to the
    microsecond. *)
Definition datetime_compare (a b : datetime) : comparison :=
  match (year a ?= year b)%N with Eq =>
  match (month a ?= month b)%N with Eq =>
  match (day a ?= day b)%N with Eq =>
  match (hour a ?= hour b)%N with Eq =>
  match (minute a ?= minute b)%N with Eq =>
  match (second a ?= second b)%N with Eq =>
    (microsecond a ?= microsecond b)%N
  | c => c end | c => c end | c => c end
  | c => c end | c => c end | c => c end.

(** What a recorded participation leaves behind: the new row in the
    table, and the confirmation as the reply. *)
Definition recorded (now : datetime) (req : Request) (w : World)
    (label : option str) : World * Response :=
  let from_number := get (From req) [] in
  let profile_name := get (ProfileName req) from_number in
  (set_database
     (add_participation now from_number profile_name label (database w)) w,
   Twiml (confirmation profile_name)).

(** ** Sample data *)

Definition sender_a : str := Eval vm_compute in py "whatsapp:+5571900000001".
Definition sender_b : str := Eval vm_compute in py "whatsapp:+5571900000002".
Definition ana : str := Eval vm_compute in py "Ana".
Definition bia : str := Eval vm_compute in py "Bia".

Definition morning : datetime := mkDatetime 2024 3 1 10 0 0 250000.
Definition noon : datetime := mkDatetime 2024 3 1 12 0 0 500000.
Definition on_the_second : datetime := mkDatetime 2024 3 1 12 0 0 0.

(** Ana in the morning with a title, Bia at noon without. *)
Definition db_ana_bia : Database :=
  add_participation noon sender_b bia None
    (add_participation morning sender_a ana (Some (py "x")) empty_db).

(** Ana twice, the clock reading [noon] both times. *)
Definition db_same_instant : Database :=
  add_participation noon sender_a ana (Some (py "y"))
    (add_participation noon sender_a ana (Some (py "x")) empty_db).

(** Its two rows: the one inserted first and the one inserted last. *)
Definition tie_older : Row :=
  mkRow 1 sender_a ana (Datetime.adapt_datetime noon) (Some (py "x")).

Definition tie_newest : Row :=
  mkRow 2 sender_a ana (Datetime.adapt_datetime noon) (Some (py "y")).

(** Ana on eleven days in a row, at noon each day. *)
Definition day_at_noon (d : N) : datetime := mkDatetime 2024 3 d 12 0 0 500000.

Definition db_eleven : Database :=
  fold_left
    (fun db d => add_participation (day_at_noon d) sender_a ana None db)
    [1; 2; 3; 4; 5; 6; 7; 8; 9; 10; 11]%N empty_db.

(** Its row of the last day and its row of the first day. *)
Definition eleven_latest : Row :=
  mkRow 11 sender_a ana (Datetime.adapt_datetime (day_at_noon 11)) None.

Definition eleven_oldest : Row :=
  mkRow 1 sender_a ana (Datetime.adapt_datetime (day_at_noon 1)) None.

(** Ana once, at noon. *)
Definition db_ana_noon : Database :=
  add_participation noon sender_a ana (Some (py "x")) empty_db.

Definition world_ana_bia : World := mkWorld db_ana_bia [] [].

Definition app_dir : str := Eval vm_compute in py "/home/bot/app".

Definition no_config : Config := mkConfig None None app_dir app_dir.

(** Bia is the administrator. *)
Definition config_bia : Config :=
  mkConfig (Some (py "whatsapp:+14155238886")) (Some sender_b) app_dir app_dir.

(** The same, with the process started from another directory. *)
Definition config_elsewhere : Config :=
  mkConfig (Some (py "whatsapp:+14155238886")) (Some sender_b)
           (py "/home/bot") app_dir.

Definition request_of (text sender name : str) : Request :=
  mkRequest (Some text) (Some sender) (Some name) (py "https://bot.example/").

Definition empty_world : World := mkWorld empty_db [] [].

Definition req_participei : Request :=
  request_of (py "Participei: clipe final") sender_a ana.

Definition req_blank_label : Request :=
  request_of (py "  Gravei:   ") sender_a ana.

Definition req_bom_dia : Request := request_of (py "bom dia") sender_a ana.

Definition req_empty : Request := mkRequest None (Some sender_a) None [].

Definition req_fix_other : Request :=
  request_of (py "/corrigir ultimo whatsapp:+5571900000001") sender_b bia.

Definition req_history : Request :=
  request_of (py "/meu historico") sender_a ana.

Definition req_listing : Request :=
  request_of (py "/Ultimos Registros") sender_b bia.

(** Ana, recorded when the clock read a whole second. *)
Definition world_whole_second : World :=
  mkWorld (add_participation on_the_second sender_a ana None empty_db) [] [].

Definition row_whole_second : Row :=
  mkRow 1 sender_a ana (Datetime.adapt_datetime on_the_second) None.

(** Ana on a whole second, then Bia at noon: date texts of both forms. *)
Definition world_mixed : World :=
  mkWorld (add_participation noon sender_b bia None
             (add_participation on_the_second sender_a ana None empty_db))
          [] [].

Definition req_report_now : Request :=
  request_of (py "/Relatorio agora") sender_b bia.


(** ** More of the application *)

(** Any number of INSERTs and of deletions of a last record, from one
    state of the file to a later one. *)
Inductive steps : Database -> Database -> Prop :=
| steps_refl db : steps db db
| steps_add now number name title db db' :
    steps db db' -> steps db (add_participation now number name title db')
| steps_delete number db db' :
    steps db db' -> steps db (fst (delete_last_user_record number db')).

(** The content of the file of path [path], if there is one. *)
Fixpoint read_file (path : str) (fs : list (str * FileContent))
  : option FileContent :=
  match fs with
  | [] => None
  | (p, c) :: rest => if Str.eqb p path then Some c else read_file path rest
  end.

(** What the route [/reports/<filename>] answers. *)
Inductive FileResponse :=
| FileBody (content : FileContent)
| NotFound404.

(** [serve_report]: [send_from_directory('reports', filename)], which
    looks for the file under the root path of the application, not under
    the working directory.  The route gives it a name without a slash;
    the names [.] and [..] are not files of the directory. *)
Definition serve_report (cfg : Config) (filename : str) (w : World)
  : FileResponse :=
  if Str.contains 47%N filename
     || Str.eqb filename (py ".") || Str.eqb filename (py "..")
     || negb (Str.truthy filename)
  then NotFound404
  else match read_file (in_dir (root_path cfg) (py "reports/" ++ filename))
                       (files w) with
       | Some c => FileBody c
       | None => NotFound404
       end.

(** The rows of a table that are not among the listed ones. *)
Definition not_listed (listed rows : list Row) (r : Row) : Prop :=
  In r rows /\ ~ In r listed.

(** The row was stored from the clock reading [t], a valid instant with
    a microsecond that is not zero. *)
Definition stored_at_fraction (r : Row) (t : datetime) : Prop :=
  Datetime.valid t = true /\ microsecond t <> 0%N
  /\ date r = Datetime.adapt_datetime t.


(** * Properties *)

(** ** Text comparison *)

Lemma str_eqb_eq (a b : str) : Str.eqb a b = true <-> a = b.
Proof.
  revert b; induction a as [|x a IH]; intros [|y b]; simpl;
    try (split; [discriminate | congruence]); try tauto.
  rewrite andb_true_iff, N.eqb_eq, IH. split.
  - intros [-> ->]; reflexivity.
  - intros H; injection H; auto.
Qed.

Lemma str_eqb_refl (a : str) : Str.eqb a a = true.
Proof. apply str_eqb_eq; reflexivity. Qed.

Lemma str_eqb_neq (a b : str) : Str.eqb a b = false <-> a <> b.
Proof.
  rewrite <- str_eqb_eq. destruct (Str.eqb a b); split; congruence.
Qed.

Lemma str_compare_eq (a b : str) : Str.compare a b = Eq <-> a = b.
Proof.
  revert b; induction a as [|x a IH]; intros [|y b]; simpl;
    try (split; [discriminate | congruence]); try tauto.
  destruct (N.compare_spec x y) as [->|Hxy|Hxy].
  - rewrite IH. split; [congruence | intros E; injection E; auto].
  - split; [discriminate | intros E; injection E; lia].
  - split; [discriminate | intros E; injection E; lia].
Qed.

Lemma str_compare_refl (a : str) : Str.compare a a = Eq.
Proof. apply str_compare_eq; reflexivity. Qed.

Lemma str_compare_antisym (a b : str) :
  Str.compare b a = CompOpp (Str.compare a b).
Proof.
  revert b; induction a as [|x a IH]; intros [|y b]; simpl; auto.
  rewrite (N.compare_antisym x y).
  destruct (x ?= y)%N; simpl; auto.
Qed.

Lemma str_lt_trans (a b c : str) : Str.lt a b -> Str.lt b c -> Str.lt a c.
Proof.
  unfold Str.lt. revert b c.
  induction a as [|x a IH]; intros [|y b] [|z c]; simpl; try discriminate; auto.
  destruct (x ?= y)%N eqn:Exy; try discriminate;
    destruct (y ?= z)%N eqn:Eyz; try discriminate; intros Hab Hbc.
  - apply N.compare_eq_iff in Exy, Eyz. subst. rewrite N.compare_refl. eauto.
  - apply N.compare_eq_iff in Exy. subst. rewrite Eyz. reflexivity.
  - apply N.compare_eq_iff in Eyz. subst. rewrite Exy. reflexivity.
  - rewrite N.compare_lt_iff in Exy, Eyz.
    assert (x < z)%N as Hxz by lia.
    apply N.compare_lt_iff in Hxz. rewrite Hxz. reflexivity.
Qed.

Lemma str_lt_irrefl (a : str) : ~ Str.lt a a.
Proof. unfold Str.lt. rewrite str_compare_refl. discriminate. Qed.

Lemma str_ltb_lt (a b : str) : Str.ltb a b = true <-> Str.lt a b.
Proof.
  unfold Str.ltb, Str.lt. destruct (Str.compare a b); split; congruence.
Qed.

(** When [a] is not below [b], [b] is below [a] or equal to it. *)
Lemma str_ltb_false (a b : str) :
  Str.ltb a b = false -> Str.lt b a \/ a = b.
Proof.
  unfold Str.ltb, Str.lt. rewrite (str_compare_antisym a b).
  destruct (Str.compare a b) eqn:E; simpl; try discriminate; auto.
  apply str_compare_eq in E; auto.
Qed.

Lemma str_ltb_irrefl (a : str) : Str.ltb a a = false.
Proof. unfold Str.ltb. rewrite str_compare_refl. reflexivity. Qed.

Lemma str_lt_ltb_false (a b : str) : Str.lt a b -> Str.ltb b a = false.
Proof.
  unfold Str.ltb, Str.lt. intros H.
  rewrite (str_compare_antisym a b), H. reflexivity.
Qed.

(** ** The table and its order *)

Lemma wf_empty : wf empty_db.
Proof. repeat split; try constructor. simpl; lia. Qed.

Lemma StronglySorted_app_one (A : Type) (R : A -> A -> Prop) l x :
  StronglySorted R l -> Forall (fun y => R y x) l ->
  StronglySorted R (l ++ [x]).
Proof.
  induction 1 as [|a l Hs IH Ha]; intros Hall; simpl.
  - repeat constructor.
  - inversion Hall; subst. constructor; auto.
    apply Forall_app; split; auto.
Qed.

Lemma StronglySorted_filter (A : Type) (R : A -> A -> Prop) f l :
  StronglySorted R l -> StronglySorted R (filter f l).
Proof.
  induction 1 as [|a l Hs IH Ha]; simpl; [constructor|].
  destruct (f a); auto. constructor; auto.
  rewrite Forall_forall in *. intros x Hx.
  apply filter_In in Hx. apply Ha, Hx.
Qed.

Lemma firstn_In (A : Type) n (l : list A) x : In x (firstn n l) -> In x l.
Proof.
  revert n; induction l as [|a l IH]; intros [|n]; simpl; try tauto.
  intros [->|H]; eauto.
Qed.

Lemma StronglySorted_firstn (A : Type) (R : A -> A -> Prop) n l :
  StronglySorted R l -> StronglySorted R (firstn n l).
Proof.
  intros H; revert n.
  induction H as [|a l Hs IH Ha]; intros [|n]; simpl; try constructor; auto.
  rewrite Forall_forall in *. intros x Hx.
  apply Ha. eapply firstn_In; eauto.
Qed.

Lemma wf_add now number name title db :
  wf db -> wf (add_participation now number name title db).
Proof.
  intros (Hs & Hb & Hseq). repeat split; simpl.
  - apply StronglySorted_app_one; auto.
    eapply Forall_impl; [|exact Hb]. unfold id_lt; simpl; intros; lia.
  - apply Forall_app; split.
    + eapply Forall_impl; [|exact Hb]. simpl; intros; lia.
    + constructor; [simpl; lia | constructor].
  - lia.
Qed.

Lemma wf_delete_where_id i db :
  wf db ->
  wf (mkDatabase (delete_where_id i (participations db)) (sqlite_sequence db)).
Proof.
  intros (Hs & Hb & Hseq). repeat split; simpl; auto.
  - apply StronglySorted_filter; auto.
  - rewrite Forall_forall in *. intros x Hx.
    apply filter_In in Hx. apply Hb, Hx.
Qed.

Lemma wf_delete_last number db :
  wf db -> wf (fst (delete_last_user_record number db)).
Proof.
  intros H. unfold delete_last_user_record.
  destruct (firstn 1 (user_history_rows number db)); simpl; auto.
  apply wf_delete_where_id; auto.
Qed.

(** Every database the handlers produce satisfies the invariant. *)
Lemma reachable_wf db : reachable db -> wf db.
Proof.
  induction 1; [apply wf_empty | apply wf_add | apply wf_delete_last]; auto.
Qed.

Lemma insert_desc_In r l x : In x (insert_desc r l) <-> x = r \/ In x l.
Proof.
  induction l as [|h t IH]; simpl.
  - intuition.
  - destruct (Str.ltb (date r) (date h)); simpl; rewrite ?IH; intuition.
Qed.

Lemma order_by_date_desc_In rows x :
  In x (order_by_date_desc rows) <-> In x rows.
Proof.
  induction rows as [|r rows IH]; simpl; [tauto|].
  rewrite insert_desc_In, IH. intuition.
Qed.

Lemma order_by_date_desc_perm rows : Permutation (order_by_date_desc rows) rows.
Proof.
  induction rows as [|r rows IH]; simpl; auto.
  transitivity (r :: order_by_date_desc rows); [|auto].
  generalize (order_by_date_desc rows) as l. clear.
  induction l as [|h t IHl]; simpl; auto.
  destruct (Str.ltb (date r) (date h)); auto.
  rewrite IHl. apply perm_swap.
Qed.

(** Inserting a row that precedes, in id, every row already sorted keeps
    the list sorted by date downwards and by id among equal dates. *)
Lemma insert_desc_sorted r l :
  StronglySorted before l -> Forall (id_lt r) l ->
  StronglySorted before (insert_desc r l).
Proof.
  induction 1 as [|h t Hs IH Hh]; intros Hid; simpl.
  - repeat constructor.
  - inversion Hid as [|? ? Hrh Hrt]; subst.
    destruct (Str.ltb (date r) (date h)) eqn:E.
    + constructor; auto.
      rewrite Forall_forall in *. intros x Hx.
      apply insert_desc_In in Hx. destruct Hx as [->|Hx]; auto.
      left. apply str_ltb_lt; exact E.
    + assert (before r h) as Hbh.
      { destruct (str_ltb_false _ _ E) as [Hlt|Heq]; [left|right]; auto. }
      constructor; [constructor; auto|].
      constructor; auto.
      rewrite Forall_forall in *. intros x Hx.
      specialize (Hh x Hx). specialize (Hrt x Hx).
      destruct Hbh as [Hlt|[Heq _]]; destruct Hh as [Hlt'|[Heq' _]].
      * left. eapply str_lt_trans; eauto.
      * left. rewrite <- Heq'. exact Hlt.
      * left. rewrite Heq. exact Hlt'.
      * right. split; [congruence | exact Hrt].
Qed.

Lemma order_by_date_desc_sorted rows :
  StronglySorted id_lt rows -> StronglySorted before (order_by_date_desc rows).
Proof.
  induction 1 as [|r rows Hs IH Hr]; simpl; [constructor|].
  apply insert_desc_sorted; auto.
  rewrite Forall_forall in *. intros x Hx.
  apply Hr, order_by_date_desc_In, Hx.
Qed.

Lemma before_not_later a b : before a b -> Str.ltb (date a) (date b) = false.
Proof.
  intros [H|[H _]].
  - apply str_lt_ltb_false; auto.
  - rewrite H. apply str_ltb_irrefl.
Qed.

(** ** Deleting the last record of a sender *)

(** With unique ids, the DELETE of the id of [r] removes [r] only. *)
Lemma delete_where_id_split l1 r l2 :
  StronglySorted id_lt (l1 ++ r :: l2) ->
  delete_where_id (id r) (l1 ++ r :: l2) = l1 ++ l2.
Proof.
  unfold delete_where_id. induction l1 as [|a l1 IH]; simpl; intros H.
  - rewrite Z.eqb_refl; simpl.
    inversion H as [|? ? _ Hall]; subst. clear H.
    induction l2 as [|b l2 IHl]; simpl; auto.
    inversion Hall as [|? ? Hb Hl]; subst.
    unfold id_lt in Hb.
    destruct (Z.eqb_spec (id b) (id r)); [lia|]. simpl. f_equal; auto.
  - inversion H as [|? ? Hs Hall]; subst.
    rewrite Forall_forall in Hall.
    assert (id_lt a r) as Har by (apply Hall, in_elt).
    unfold id_lt in Har.
    destruct (Z.eqb_spec (id a) (id r)); [lia|]. simpl. f_equal; auto.
Qed.

Lemma where_whatsapp_number_In number rows x :
  In x (where_whatsapp_number number rows)
  <-> In x rows /\ whatsapp_number x = number.
Proof.
  unfold where_whatsapp_number. rewrite filter_In, str_eqb_eq. tauto.
Qed.

Lemma where_whatsapp_number_app number l1 l2 :
  where_whatsapp_number number (l1 ++ l2)
  = where_whatsapp_number number l1 ++ where_whatsapp_number number l2.
Proof. apply filter_app. Qed.

Lemma user_history_rows_hd number db r rest :
  wf db -> user_history_rows number db = r :: rest ->
  In r (participations db) /\ whatsapp_number r = number
  /\ newest_in r (where_whatsapp_number number (participations db))
  /\ first_of_its_date r (where_whatsapp_number number (participations db)).
Proof.
  intros (Hs & _) E.
  assert (In r (user_history_rows number db)) as Hin by (rewrite E; left; auto).
  apply order_by_date_desc_In, where_whatsapp_number_In in Hin.
  destruct Hin as [Hin Hnum].
  assert (StronglySorted before (r :: rest)) as Hsorted.
  { rewrite <- E. apply order_by_date_desc_sorted, StronglySorted_filter, Hs. }
  inversion Hsorted as [|? ? _ Hall]; subst.
  rewrite Forall_forall in Hall.
  repeat split; auto.
  - intros x Hx. apply order_by_date_desc_In in Hx.
    fold (user_history_rows (whatsapp_number r) db) in Hx. rewrite E in Hx.
    destruct Hx as [<-|Hx]; [apply str_ltb_irrefl|].
    apply before_not_later; auto.
  - intros x Hx Hdate. apply order_by_date_desc_In in Hx.
    fold (user_history_rows (whatsapp_number r) db) in Hx. rewrite E in Hx.
    destruct Hx as [<-|Hx]; [lia|].
    destruct (Hall x Hx) as [Hlt|[_ Hid]]; [|lia].
    rewrite Hdate in Hlt. destruct (str_lt_irrefl Hlt).
Qed.

(** C1, as the code has it. On a table with unique ids: when the sender
    has at least one record, [delete_last_user_record] returns [True] and
    removes exactly one row [r] of that sender, the row its history query
    lists first and than which no row of the sender is later; of several
    rows with that latest date it is the one of smallest id, the oldest
    insertion and not the newest.  The sender then has one record less and
    the rows of every other sender are the same.  When the sender has no
    record it returns [False] and the database is as it was. *)
Theorem delete_last_user_record_spec (number : str) (db : Database) :
  wf db ->
  ((1 <= length (where_whatsapp_number number (participations db)))%nat ->
   exists r l1 l2,
     participations db = l1 ++ r :: l2
     /\ whatsapp_number r = number
     /\ newest_in r (where_whatsapp_number number (participations db))
     /\ first_of_its_date r (where_whatsapp_number number (participations db))
     /\ hd_error (user_history_rows number db) = Some r
     /\ delete_last_user_record number db
        = (mkDatabase (l1 ++ l2) (sqlite_sequence db), true)
     /\ S (length (where_whatsapp_number number (l1 ++ l2)))
        = length (where_whatsapp_number number (participations db))
     /\ (forall other, other <> number ->
           where_whatsapp_number other (l1 ++ l2)
           = where_whatsapp_number other (participations db)))
  /\ (length (where_whatsapp_number number (participations db)) = 0%nat ->
      delete_last_user_record number db = (db, false)).
Proof.
  intros Hwf. split.
  - intros Hn.
    destruct (user_history_rows number db) as [|r rest] eqn:E.
    + pose proof (Permutation_length
                    (order_by_date_desc_perm
                       (where_whatsapp_number number (participations db)))) as P.
      fold (user_history_rows number db) in P. rewrite E in P.
      simpl in P. lia.
    + destruct (user_history_rows_hd _ Hwf E) as (Hin & Hnum & Hnew & Hfirst).
      destruct (in_split _ _ Hin) as (l1 & l2 & Hsplit).
      exists r, l1, l2. repeat split; auto.
      * unfold delete_last_user_record. rewrite E. simpl.
        rewrite Hsplit at 1. rewrite delete_where_id_split; auto.
        rewrite <- Hsplit. apply Hwf.
      * rewrite Hsplit, !where_whatsapp_number_app. simpl.
        replace (Str.eqb (whatsapp_number r) number) with true
          by (symmetry; apply str_eqb_eq; auto).
        rewrite !length_app. simpl. lia.
      * intros other Hother.
        rewrite Hsplit, !where_whatsapp_number_app. simpl.
        replace (Str.eqb (whatsapp_number r) other) with false; auto.
        symmetry. apply str_eqb_neq. congruence.
  - intros Hz. unfold delete_last_user_record.
    destruct (user_history_rows number db) as [|r rest] eqn:E; auto.
    pose proof (Permutation_length
                  (order_by_date_desc_perm
                     (where_whatsapp_number number (participations db)))) as P.
    fold (user_history_rows number db) in P. rewrite E in P.
    simpl in P. lia.
Qed.

Lemma delete_last_user_record_witness :
  wf db_ana_bia
  /\ exists r l1 l2,
       participations db_ana_bia = l1 ++ r :: l2
       /\ whatsapp_number r = sender_a
       /\ delete_last_user_record sender_a db_ana_bia
          = (mkDatabase (l1 ++ l2) (sqlite_sequence db_ana_bia), true).
Proof.
  assert (wf db_ana_bia) as Hwf by (repeat apply wf_add; apply wf_empty).
  split; [exact Hwf|].
  destruct (delete_last_user_record_spec sender_a Hwf) as [Hsome _].
  destruct Hsome as (r & l1 & l2 & H1 & H2 & _ & _ & _ & H5 & _).
  - vm_compute. lia.
  - exists r, l1, l2. auto.
Defined.

(** C1 as stated fails: of two records of one sender stored at the same
    instant, the deletion removes the one inserted first (id 1); the
    newest record of the sender, the one inserted last (id 2), stays in
    the table. *)
Lemma tie_deletes_the_older_record :
  wf db_same_instant
  /\ participations db_same_instant = [tie_older; tie_newest]
  /\ newest_of_sender sender_a (participations db_same_instant) tie_newest
  /\ ~ newest_of_sender sender_a (participations db_same_instant) tie_older
  /\ delete_last_user_record sender_a db_same_instant
     = (mkDatabase [tie_newest] 2, true)
  /\ In tie_newest
        (participations (fst (delete_last_user_record sender_a db_same_instant)))
  /\ ~ In tie_older
        (participations (fst (delete_last_user_record sender_a db_same_instant))).
Proof.
  pose (older := tie_older). pose (newest := tie_newest).
  change tie_older with older. change tie_newest with newest.
  assert (participations db_same_instant = [older; newest]) as Erows
    by (vm_compute; reflexivity).
  assert (delete_last_user_record sender_a db_same_instant
          = (mkDatabase [newest] 2, true)) as Edel
    by (vm_compute; reflexivity).
  split; [repeat apply wf_add; apply wf_empty|].
  split; [exact Erows|]. rewrite Edel, Erows. cbn [fst participations].
  split; [|split; [|split; [reflexivity|split]]].
  - split; [right; left; reflexivity|]. split; [reflexivity|].
    intros x [<-|[<-|[]]] _ Hx.
    + right. split; [reflexivity|]. vm_compute. reflexivity.
    + destruct Hx. reflexivity.
  - intros (_ & _ & H).
    destruct (H newest) as [Hlt|[_ Hid]].
    + right; left; reflexivity.
    + reflexivity.
    + discriminate.
    + exact (str_lt_irrefl Hlt).
    + vm_compute in Hid. discriminate.
  - left. reflexivity.
  - intros [E|[]]. discriminate.
Qed.

(** ** The order of the history and of the listing *)

Lemma order_by_date_desc_newest_last l r :
  forallb (fun x => Str.ltb (date x) (date r)) l = true ->
  order_by_date_desc (l ++ [r]) = r :: order_by_date_desc l.
Proof.
  induction l as [|a l IH]; simpl; auto.
  rewrite andb_true_iff. intros [Ha Hl].
  rewrite (IH Hl). simpl. rewrite Ha. reflexivity.
Qed.

Lemma nth_error_sorted (A : Type) (R : A -> A -> Prop) l i j a b :
  StronglySorted R l -> (i < j)%nat ->
  nth_error l i = Some a -> nth_error l j = Some b -> R a b.
Proof.
  intros H; revert i j.
  induction H as [|x l Hs IH Hx]; intros i j Hij Hi Hj.
  - destruct i; discriminate.
  - destruct j as [|j]; [lia|]. simpl in Hj.
    destruct i as [|i]; simpl in Hi.
    + injection Hi as ->. rewrite Forall_forall in Hx.
      apply Hx. eapply nth_error_In; eauto.
    + apply (IH i j); auto; lia.
Qed.

(** C2, as the code has it. On a table with unique ids, the rows of the
    history query are the rows of the sender, and those of the listing are
    the first ten of all rows, both listed by date downwards; the queries
    name no second key, and rows of equal date come in scan order, that is
    by increasing id. *)
Theorem history_and_listing_order (number : str) (db : Database) :
  wf db ->
  StronglySorted before (user_history_rows number db)
  /\ Permutation (user_history_rows number db)
                 (where_whatsapp_number number (participations db))
  /\ StronglySorted before (last_10_rows db)
  /\ (exists rest, Permutation (last_10_rows db ++ rest) (participations db))
  /\ length (last_10_rows db) = Nat.min 10 (length (participations db))
  /\ (forall rows, rows = user_history_rows number db \/ rows = last_10_rows db ->
      forall i j a b, (i < j)%nat ->
        nth_error rows i = Some a -> nth_error rows j = Some b ->
        Str.ltb (date a) (date b) = false
        /\ (date a = date b -> (id a < id b)%Z)).
Proof.
  intros (Hs & _).
  assert (StronglySorted before (user_history_rows number db)) as H1
    by apply order_by_date_desc_sorted, StronglySorted_filter, Hs.
  assert (StronglySorted before (last_10_rows db)) as H2
    by apply StronglySorted_firstn, order_by_date_desc_sorted, Hs.
  split; [exact H1|]. split; [apply order_by_date_desc_perm|].
  split; [exact H2|]. split; [|split].
  - exists (skipn 10 (order_by_date_desc (participations db))).
    unfold last_10_rows. rewrite firstn_skipn. apply order_by_date_desc_perm.
  - unfold last_10_rows. rewrite length_firstn.
    rewrite (Permutation_length (order_by_date_desc_perm _)). reflexivity.
  - intros rows Hrows i j a b Hij Hi Hj.
    assert (before a b) as Hab
      by (destruct Hrows as [-> | ->];
          [eapply (nth_error_sorted H1) | eapply (nth_error_sorted H2)]; eauto).
    split; [apply before_not_later; exact Hab|].
    intros Heq. destruct Hab as [Hlt|[_ Hid]]; auto.
    rewrite Heq in Hlt. destruct (str_lt_irrefl Hlt).
Qed.

Lemma history_and_listing_order_witness :
  wf db_same_instant
  /\ StronglySorted before (user_history_rows sender_a db_same_instant)
  /\ StronglySorted before (last_10_rows db_same_instant).
Proof.
  assert (wf db_same_instant) as Hwf by (repeat apply wf_add; apply wf_empty).
  split; [exact Hwf|].
  destruct (history_and_listing_order sender_a Hwf) as (H1 & _ & H3 & _).
  split; assumption.
Defined.

(** C2 as stated fails: two records of one instant are listed with the
    smaller id first, in the history and in the listing. *)
Lemma ties_are_not_id_descending :
  wf db_same_instant
  /\ map id (user_history_rows sender_a db_same_instant) = [1; 2]%Z
  /\ map id (last_10_rows db_same_instant) = [1; 2]%Z
  /\ get_user_history sender_a db_same_instant
     = [(Datetime.isoformat noon, Some (py "x"));
        (Datetime.isoformat noon, Some (py "y"))]
  /\ ~ ties_id_descending (user_history_rows sender_a db_same_instant)
  /\ ~ ties_id_descending (last_10_rows db_same_instant).
Proof.
  split; [repeat apply wf_add; apply wf_empty|].
  repeat split; try reflexivity.
  - intros H.
    specialize (H 0%nat 1%nat _ _ (Nat.lt_0_succ 0) eq_refl eq_refl eq_refl).
    vm_compute in H. discriminate.
  - intros H.
    specialize (H 0%nat 1%nat _ _ (Nat.lt_0_succ 0) eq_refl eq_refl eq_refl).
    vm_compute in H. discriminate.
Qed.

(** ** Append, then query *)

Lemma user_history_rows_add now number name title db :
  forallb (fun r => Str.ltb (date r) (Datetime.adapt_datetime now))
          (where_whatsapp_number number (participations db)) = true ->
  user_history_rows number (add_participation now number name title db)
  = mkRow (sqlite_sequence db + 1) number name (Datetime.adapt_datetime now) title
      :: user_history_rows number db.
Proof.
  intros H. unfold user_history_rows, add_participation. simpl.
  rewrite where_whatsapp_number_app. simpl. rewrite str_eqb_refl.
  apply order_by_date_desc_newest_last. exact H.
Qed.

(** C3, as the code has it. When every record the sender already has
    carries an earlier date than the one being stored, the history query
    that follows the INSERT lists the new record first. *)
Theorem append_then_query_first
    (now : datetime) (number name : str) (title : option str) (db : Database) :
  forallb (fun r => Str.ltb (date r) (Datetime.adapt_datetime now))
          (where_whatsapp_number number (participations db)) = true ->
  let db' := add_participation now number name title db in
  hd_error (user_history_rows number db')
  = Some (mkRow (sqlite_sequence db + 1) number name
                (Datetime.adapt_datetime now) title)
  /\ hd_error (get_user_history number db')
     = Some (Datetime.adapt_datetime now, title).
Proof.
  intros H db'. unfold db', get_user_history.
  rewrite (user_history_rows_add _ _ _ _ _ H). split; reflexivity.
Qed.

Lemma append_then_query_first_witness :
  forallb (fun r => Str.ltb (date r) (Datetime.adapt_datetime noon))
          (where_whatsapp_number sender_a (participations db_ana_bia)) = true
  /\ hd_error (get_user_history sender_a
                 (add_participation noon sender_a ana None db_ana_bia))
     = Some (Datetime.adapt_datetime noon, None).
Proof.
  split; [reflexivity|].
  apply (append_then_query_first noon sender_a ana None db_ana_bia).
  reflexivity.
Defined.

(** C3 as stated fails: after a record stored at noon, a record stored
    with the clock reading the morning (or noon again) is not the first of
    the history. *)
Lemma append_then_query_not_first :
  wf db_ana_noon
  /\ hd_error (get_user_history sender_a
                 (add_participation morning sender_a ana None db_ana_noon))
     = Some (Datetime.adapt_datetime noon, Some (py "x"))
  /\ hd_error (get_user_history sender_a
                 (add_participation morning sender_a ana None db_ana_noon))
     <> Some (Datetime.adapt_datetime morning, None)
  /\ hd_error (get_user_history sender_a
                 (add_participation noon sender_a ana None db_ana_noon))
     <> Some (Datetime.adapt_datetime noon, None).
Proof.
  split; [apply wf_add, wf_empty|].
  repeat split; try reflexivity; vm_compute; discriminate.
Qed.

(** ** The groups of the report *)

Lemma insert_key_In k ks x : In x (insert_key k ks) <-> x = k \/ In x ks.
Proof.
  induction ks as [|h t IH]; simpl; [intuition|].
  destruct (Str.compare k h) eqn:E; simpl; rewrite ?IH.
  - apply str_compare_eq in E. subst. intuition.
  - intuition.
  - intuition.
Qed.

Lemma insert_key_sorted k ks :
  StronglySorted Str.lt ks -> StronglySorted Str.lt (insert_key k ks).
Proof.
  induction 1 as [|h t Hs IH Hh]; simpl; [repeat constructor|].
  destruct (Str.compare k h) eqn:E.
  - constructor; auto.
  - constructor; [constructor; auto|].
    constructor; auto.
    eapply Forall_impl; [|exact Hh]. intros x Hx.
    eapply str_lt_trans; eauto.
  - constructor; auto.
    rewrite Forall_forall in *. intros x Hx.
    apply insert_key_In in Hx. destruct Hx as [->|Hx]; auto.
    unfold Str.lt. rewrite (str_compare_antisym k h), E. reflexivity.
Qed.

Lemma sorted_lt_NoDup ks : StronglySorted Str.lt ks -> NoDup ks.
Proof.
  induction 1 as [|h t Hs IH Hh]; constructor; auto.
  intros Hin. rewrite Forall_forall in Hh.
  exact (str_lt_irrefl (Hh _ Hin)).
Qed.

Lemma group_keys_sorted df : StronglySorted Str.lt (group_keys df).
Proof.
  unfold group_keys. induction (map profile_name df); simpl.
  - constructor.
  - apply insert_key_sorted; auto.
Qed.

Lemma group_keys_In df k :
  In k (group_keys df) <-> exists r, In r df /\ profile_name r = k.
Proof.
  transitivity (In k (map profile_name df)).
  - unfold group_keys.
    induction (map profile_name df) as [|a l IH]; simpl; [tauto|].
    rewrite insert_key_In, IH. intuition.
  - rewrite in_map_iff. split; intros (r & H1 & H2); exists r; auto.
Qed.

Lemma list_sum_cons a l : list_sum (a :: l) = (a + list_sum l)%nat.
Proof. reflexivity. Qed.

(** A row counts in the group of its own name and in no other. *)
Lemma group_sizes_cons r df ks :
  NoDup ks ->
  list_sum (map (fun k => length (group_rows k (r :: df))) ks)
  = (list_sum (map (fun k => length (group_rows k df)) ks)
     + if existsb (Str.eqb (profile_name r)) ks then 1 else 0)%nat.
Proof.
  induction 1 as [|a ks Ha Hnd IH]; [reflexivity|].
  rewrite !map_cons, !list_sum_cons, IH.
  assert (length (group_rows a (r :: df))
          = ((if Str.eqb (profile_name r) a then 1 else 0)
             + length (group_rows a df))%nat) as ->
    by (unfold group_rows; simpl; destruct (Str.eqb _ _); reflexivity).
  cbn [existsb].
  destruct (Str.eqb (profile_name r) a) eqn:E; simpl; [|lia].
  apply str_eqb_eq in E. subst a.
  destruct (existsb (Str.eqb (profile_name r)) ks) eqn:Ex; [|lia].
  apply existsb_exists in Ex. destruct Ex as (x & Hx & Hxe).
  apply str_eqb_eq in Hxe. subst x. contradiction.
Qed.

Lemma group_sizes_sum df ks :
  NoDup ks -> (forall r, In r df -> In (profile_name r) ks) ->
  list_sum (map (fun k => length (group_rows k df)) ks) = length df.
Proof.
  intros Hnd. induction df as [|r df IH]; intros Hall.
  - clear. induction ks; simpl; auto.
  - rewrite group_sizes_cons by assumption.
    rewrite IH by (intros; apply Hall; right; assumption).
    replace (existsb (Str.eqb (profile_name r)) ks) with true; [simpl; lia|].
    symmetry. apply existsb_exists. exists (profile_name r).
    split; [apply Hall; left; reflexivity | apply str_eqb_refl].
Qed.

Section Report.

Variable display_date : str -> str.

Lemma format_dates_names df :
  forall k, (exists r, In r (format_dates display_date df) /\ profile_name r = k)
            <-> (exists r, In r df /\ profile_name r = k).
Proof.
  intros k. unfold format_dates. split.
  - intros (r & Hr & <-). apply in_map_iff in Hr.
    destruct Hr as (r0 & <- & Hr0). exists r0. auto.
  - intros (r & Hr & <-). exists (display_row display_date r).
    split; [apply in_map; auto | reflexivity].
Qed.

Lemma report_summary_total df :
  list_sum (map total_participations (report_summary display_date df))
  = length df.
Proof.
  unfold report_summary, groupby_profile_name. rewrite !map_map. simpl.
  erewrite map_ext; [|intros; rewrite length_map; reflexivity].
  rewrite group_sizes_sum.
  - apply length_map.
  - apply sorted_lt_NoDup, group_keys_sorted.
  - intros r Hr. apply group_keys_In. eauto.
Qed.

Variable to_datetime_strftime : list str -> option (str -> str).

(** The world a completed run leaves: the two files under the working
    directory, then the message. *)
Lemma report_run_completed (cfg : Config) request on_demand w :
  participations (database w) <> [] ->
  to_datetime_strftime (map participation_date (participations (database w)))
  = Some display_date ->
  let summary := report_summary display_date (participations (database w)) in
  let base_url :=
    match request with
    | Some r => host_url r
    | None => py "https://SEU_USUARIO.pythonanywhere.com/"
    end in
  generate_and_send_report to_datetime_strftime cfg request on_demand w
  = Completed
      (messages_create
         (mkMessage (TWILIO_PHONE_NUMBER cfg) (summary_message base_url summary)
                    (ADMIN_PHONE_NUMBER cfg))
         (write_file (in_dir (cwd cfg) report_path_xlsx) (XlsxFile summary)
            (write_file (in_dir (cwd cfg) report_path_csv) (CsvFile summary)
               w))).
Proof.
  intros Hne Hread. unfold generate_and_send_report.
  destruct (participations (database w)) as [|r rows]; [congruence|].
  rewrite Hread. reflexivity.
Qed.

Lemma report_run_raised (cfg : Config) request on_demand w :
  participations (database w) <> [] ->
  to_datetime_strftime (map participation_date (participations (database w)))
  = None ->
  generate_and_send_report to_datetime_strftime cfg request on_demand w
  = RaisedValueError.
Proof.
  intros Hne Hread. unfold generate_and_send_report.
  destruct (participations (database w)) as [|r rows]; [congruence|].
  rewrite Hread. reflexivity.
Qed.

(** C4. On a ledger that is not empty, whatever display form line 126
    gives the dates, the report has one row per group, the groups have one
    key per distinct [profile_name] of the ledger, each record lies in the
    group of its own [profile_name] and in no other group, and the counts
    of the rows add up to the number of records.  The run reaches the
    grouping when line 126 does not raise, and this table is then written
    to both files; when line 126 raises, the run ends there. *)
Theorem report_groups_partition (cfg : Config) request on_demand (w : World) :
  let df := participations (database w) in
  let groups := groupby_profile_name (format_dates display_date df) in
  df <> [] ->
  report_summary display_date df = map agg groups
  /\ NoDup (map fst groups)
  /\ (forall k, In k (map fst groups)
                <-> exists r, In r df /\ profile_name r = k)
  /\ (forall r, In r df ->
        exists g, In g groups /\ fst g = profile_name r
                  /\ In (display_row display_date r) (snd g))
  /\ (forall r g, In r df -> In g groups ->
        (In (display_row display_date r) (snd g) <-> fst g = profile_name r))
  /\ list_sum (map total_participations (report_summary display_date df))
     = length df
  /\ (to_datetime_strftime (map participation_date df) = Some display_date ->
      exists w',
        generate_and_send_report to_datetime_strftime cfg request on_demand w
        = Completed w'
        /\ In (in_dir (cwd cfg) report_path_csv,
               CsvFile (report_summary display_date df)) (files w')
        /\ In (in_dir (cwd cfg) report_path_xlsx,
               XlsxFile (report_summary display_date df)) (files w'))
  /\ (to_datetime_strftime (map participation_date df) = None ->
      generate_and_send_report to_datetime_strftime cfg request on_demand w
      = RaisedValueError).
Proof.
  intros df groups Hne.
  assert (map fst groups = group_keys (format_dates display_date df)) as Hkeys.
  { unfold groups, groupby_profile_name. rewrite map_map. simpl. apply map_id. }
  assert (forall r g, In r df -> In g groups ->
            (In (display_row display_date r) (snd g) <-> fst g = profile_name r))
    as Hmember.
  { intros r g Hr Hg. unfold groups, groupby_profile_name in Hg.
    apply in_map_iff in Hg. destruct Hg as (k & <- & Hk). simpl.
    unfold group_rows. rewrite filter_In, str_eqb_eq. simpl.
    split; [intros [_ E]; auto | intros E; split; auto].
    apply in_map. exact Hr. }
  split; [reflexivity|]. split.
  { rewrite Hkeys. apply sorted_lt_NoDup, group_keys_sorted. }
  split.
  { intros k. rewrite Hkeys, group_keys_In. apply format_dates_names. }
  split.
  { intros r Hr.
    assert (In (profile_name r) (group_keys (format_dates display_date df)))
      as Hk by (apply group_keys_In, format_dates_names; eauto).
    exists (profile_name r,
            group_rows (profile_name r) (format_dates display_date df)).
    assert (In (profile_name r,
                group_rows (profile_name r) (format_dates display_date df))
               groups) as Hg.
    { unfold groups, groupby_profile_name.
      apply (in_map (fun k => (k, group_rows k (format_dates display_date df)))).
      exact Hk. }
    split; [exact Hg|]. split; [reflexivity|].
    apply (Hmember r _ Hr Hg). reflexivity. }
  split; [exact Hmember|].
  split; [apply report_summary_total|].
  split.
  - intros Hread. eexists. split.
    + apply report_run_completed; assumption.
    + assert (Str.eqb (in_dir (cwd cfg) report_path_csv)
                      (in_dir (cwd cfg) report_path_xlsx) = false) as Hcx.
      { apply str_eqb_neq. unfold in_dir. intros E.
        apply app_inv_head in E. apply app_inv_head in E.
        vm_compute in E. discriminate. }
      unfold messages_create, write_file. cbn [files]. split.
      * right. cbn [filter fst]. rewrite Hcx. cbn [negb]. left. reflexivity.
      * left. reflexivity.
  - apply report_run_raised. exact Hne.
Qed.

End Report.

(** The reading of a column all of whose texts have the form of the
    first. *)
Lemma pandas_dates_some first rest fraction :
  Str.contains 46%N first = fraction ->
  forallb (fun s => match read_as fraction s with
                    | Some _ => true
                    | None => false
                    end) (first :: rest) = true ->
  pandas_dates (first :: rest) = Some (display_as fraction).
Proof.
  intros <- H. unfold pandas_dates. cbv zeta. rewrite H. reflexivity.
Qed.

Lemma pandas_dates_none first rest :
  forallb (fun s => match read_as (Str.contains 46%N first) s with
                    | Some _ => true
                    | None => false
                    end) (first :: rest) = false ->
  pandas_dates (first :: rest) = None.
Proof.
  intros H. unfold pandas_dates. cbv zeta. rewrite H. reflexivity.
Qed.

Lemma report_groups_partition_witness :
  participations (database world_ana_bia) <> []
  /\ pandas_dates (map participation_date
                       (participations (database world_ana_bia)))
     = Some (display_as true)
  /\ list_sum (map total_participations
                   (report_summary (display_as true)
                                   (participations db_ana_bia)))
     = 2%nat
  /\ exists w',
       generate_and_send_report pandas_dates no_config None true world_ana_bia
       = Completed w'
       /\ In (in_dir (cwd no_config) report_path_csv,
              CsvFile (report_summary (display_as true)
                                      (participations db_ana_bia)))
             (files w').
Proof.
  assert (pandas_dates (map participation_date
                            (participations (database world_ana_bia)))
          = Some (display_as true)) as Hread.
  { apply (@pandas_dates_some (Datetime.adapt_datetime morning)
             [Datetime.adapt_datetime noon] true);
      vm_compute; reflexivity. }
  split; [discriminate|]. split; [exact Hread|].
  pose proof (report_groups_partition (display_as true) pandas_dates no_config
                None true world_ana_bia) as H.
  cbv zeta in H.
  destruct H as (_ & _ & _ & _ & _ & Hsum & Hdone & _).
  - discriminate.
  - split; [exact Hsum|].
    destruct (Hdone Hread) as (w' & Hrun & Hcsv & _).
    exists w'. split; assumption.
Defined.

(** The scenario of the specification: Ana twice (one title), then Bia. *)
Example report_summary_scenario :
  report_summary stored_text
    (participations
       (add_participation noon sender_b bia None
          (add_participation noon sender_a ana None
             (add_participation morning sender_a ana (Some (py "x")) empty_db))))
  = [mkSummaryRow ana 2
       (Datetime.isoformat morning ++ py " | " ++ Datetime.isoformat noon)
       (py "x");
     mkSummaryRow bia 1 (Datetime.isoformat noon) []].
Proof. reflexivity. Qed.

(** ** Text lemmas for the webhook *)

Lemma startswith_app s p :
  Str.startswith s p = true -> exists rest, s = p ++ rest.
Proof.
  revert s; induction p as [|a p IH]; intros s.
  - exists s; reflexivity.
  - destruct s as [|b s]; simpl; [discriminate|].
    rewrite andb_true_iff, N.eqb_eq. intros [-> H].
    destruct (IH _ H) as (rest & ->). exists rest; reflexivity.
Qed.

Lemma contains_split c s :
  Str.contains c s = true ->
  exists pre post, s = pre ++ c :: post /\ ~ In c pre.
Proof.
  unfold Str.contains. induction s as [|a s IH]; simpl; [discriminate|].
  destruct (N.eqb_spec c a) as [->|Hne]; simpl.
  - intros _. exists [], s. split; auto.
  - intros H. destruct (IH H) as (pre & post & -> & Hpre).
    exists (a :: pre), post. split; auto.
    intros [E|E]; [congruence | contradiction].
Qed.

Lemma contains_false c s : Str.contains c s = false <-> ~ In c s.
Proof.
  unfold Str.contains. induction s as [|a s IH]; simpl; [tauto|].
  rewrite orb_false_iff, IH, N.eqb_neq. intuition.
Qed.

Lemma split1_first c pre post :
  ~ In c pre -> Str.split1 c (pre ++ c :: post) = [pre; post].
Proof.
  induction pre as [|a pre IH]; simpl; intros H.
  - rewrite N.eqb_refl. reflexivity.
  - destruct (N.eqb_spec a c) as [->|Hne]; [tauto|].
    rewrite IH by tauto. reflexivity.
Qed.

Lemma lstrip_blank s : forallb Str.isspace s = true -> Str.lstrip s = [].
Proof.
  induction s as [|a s IH]; simpl; auto.
  rewrite andb_true_iff. intros [-> H]. auto.
Qed.

Lemma strip_blank s : forallb Str.isspace s = true -> Str.strip s = [].
Proof.
  intros H. unfold Str.strip, Str.rstrip. rewrite (lstrip_blank _ H).
  reflexivity.
Qed.

Lemma lstrip_app_blank l m :
  forallb Str.isspace l = true -> Str.lstrip (l ++ m) = Str.lstrip m.
Proof.
  induction l as [|a l IH]; simpl; auto.
  rewrite andb_true_iff. intros [-> H]. auto.
Qed.

Lemma lstrip_before_colon pre post :
  exists pre', Str.lstrip (pre ++ colon :: post) = pre' ++ colon :: post
               /\ incl pre' pre.
Proof.
  induction pre as [|a pre (pre' & E & Hincl)]; simpl.
  - exists []. split; [reflexivity | apply incl_refl].
  - destruct (Str.isspace a).
    + exists pre'. split; [exact E | apply incl_tl, Hincl].
    + exists (a :: pre). split; [reflexivity | apply incl_refl].
Qed.

(** A text that ends in a colon and blanks is stripped to end in the
    colon. *)
Lemma strip_colon_blank pre post :
  ~ In colon pre -> forallb Str.isspace post = true ->
  exists pre', Str.strip (pre ++ colon :: post) = pre' ++ [colon]
               /\ ~ In colon pre'.
Proof.
  intros Hpre Hblank.
  destruct (lstrip_before_colon pre post) as (pre' & E & Hincl).
  exists pre'. split; [|intros H; apply Hpre, Hincl, H].
  unfold Str.strip, Str.rstrip. rewrite E.
  rewrite rev_app_distr. simpl rev. rewrite <- !app_assoc.
  rewrite lstrip_app_blank.
  - simpl. rewrite rev_involutive. reflexivity.
  - apply forallb_forall. intros x Hx. apply in_rev in Hx.
    rewrite forallb_forall in Hblank. auto.
Qed.

Lemma confirmation_truthy name : Str.truthy (confirmation name) = true.
Proof. reflexivity. Qed.

(** ** Stored dates and their parsing *)

Lemma digits_of_uint_digits u c :
  In c (Str.digits_of_uint u) -> Str.isdigit c = true.
Proof.
  induction u; simpl; try tauto; intros [<-|H]; auto.
Qed.

Lemma zfill_digits w n c : In c (Str.zfill w n) -> Str.isdigit c = true.
Proof.
  unfold Str.zfill, Str.of_N. rewrite in_app_iff. intros [H|H].
  - apply repeat_spec in H. subst. reflexivity.
  - eapply digits_of_uint_digits; eauto.
Qed.

(** With a zero microsecond the text of a date has no dot. *)
Lemma isoformat_without_fraction d :
  microsecond d = 0%N -> ~ In 46%N (Datetime.isoformat d).
Proof.
  intros Hus. unfold Datetime.isoformat. rewrite Hus. simpl N.eqb. cbv iota.
  rewrite app_nil_r, !in_app_iff.
  assert (forall w n, ~ In 46%N (Str.zfill w n)) as Hz.
  { intros w n H. apply zfill_digits in H. discriminate. }
  assert (forall c, c <> 46%N -> ~ In 46%N [c]) as Hl.
  { intros c Hc [E|[]]. auto. }
  intros H.
  repeat match goal with
         | H : _ \/ _ |- _ => destruct H as [H|H]
         end;
    try (apply Hz in H; exact H);
    (revert H; apply Hl; discriminate).
Qed.

Lemma take_digits_incl n s ds rest :
  Datetime.take_digits n s = (ds, rest) -> incl rest s.
Proof.
  revert s ds rest; induction n as [|n IH]; intros s ds rest; simpl.
  - intros E; injection E as <- <-. apply incl_refl.
  - destruct s as [|c t]; [intros E; injection E as <- <-; apply incl_refl|].
    destruct (Str.isdigit c).
    + destruct (Datetime.take_digits n t) as (ds', rest') eqn:E'.
      intros E; injection E as <- <-.
      apply incl_tl. eapply IH; eauto.
    + intros E; injection E as <- <-. apply incl_refl.
Qed.

Lemma field_incl wmin wmax lo hi s v rest :
  Datetime.field wmin wmax lo hi s = Some (v, rest) -> incl rest s.
Proof.
  unfold Datetime.field.
  destruct (Datetime.take_digits wmax s) as (ds, r) eqn:E.
  destruct (_ && _); [|discriminate].
  intros H; injection H as <- <-. eapply take_digits_incl; eauto.
Qed.

Lemma lit_incl c s rest : Datetime.lit c s = Some rest -> incl rest s.
Proof.
  destruct s as [|a t]; simpl; [discriminate|].
  destruct (a =? c)%N; [|discriminate].
  intros H; injection H as <-. apply incl_tl, incl_refl.
Qed.

Lemma lit_In c s rest : Datetime.lit c s = Some rest -> In c s.
Proof.
  destruct s as [|a t]; simpl; [discriminate|].
  destruct (N.eqb_spec a c); [|discriminate]. auto.
Qed.

Lemma lstrip_incl s : incl (Str.lstrip s) s.
Proof.
  induction s as [|a t IH]; simpl; [apply incl_refl|].
  destruct (Str.isspace a); [apply incl_tl, IH | apply incl_refl].
Qed.

Lemma blanks_incl s rest : Datetime.blanks s = Some rest -> incl rest s.
Proof.
  destruct s as [|a t]; simpl; [discriminate|].
  destruct (Str.isspace a); [|discriminate].
  intros H; injection H as <-. apply incl_tl, lstrip_incl.
Qed.

Lemma field_day_incl s v rest :
  Datetime.field_day s = Some (v, rest) -> incl rest s.
Proof.
  unfold Datetime.field_day. intros H.
  assert (Datetime.field 1 2 1 31 s = Some (v, rest)
          \/ exists t, s = 32%N :: t /\ Datetime.field 1 1 1 9 t = Some (v, rest))
    as [E|(t & -> & E)].
  { destruct s as [|c t]; auto.
    destruct (N.eq_dec c 32) as [->|Hc]; [right; eauto|].
    left. destruct c as [|p]; auto.
    do 6 (destruct p as [p|p|]; auto). congruence. }
  - eapply field_incl; eauto.
  - apply incl_tl. eapply field_incl; eauto.
Qed.

(** A text without a dot is not of the format. *)
Lemma strptime_needs_dot s : ~ In 46%N s -> Datetime.strptime s = None.
Proof.
  intros Hdot. unfold Datetime.strptime.
  destruct (Datetime.field 4 4 0 9999 s) as [[Y s1]|] eqn:E1; auto.
  destruct (Datetime.lit 45 s1) as [s2|] eqn:E2; auto.
  destruct (Datetime.field 1 2 1 12 s2) as [[m s3]|] eqn:E3; auto.
  destruct (Datetime.lit 45 s3) as [s4|] eqn:E4; auto.
  destruct (Datetime.field_day s4) as [[d s5]|] eqn:E5; auto.
  destruct (Datetime.blanks s5) as [s6|] eqn:E6; auto.
  destruct (Datetime.field 1 2 0 23 s6) as [[H s7]|] eqn:E7; auto.
  destruct (Datetime.lit 58 s7) as [s8|] eqn:E8; auto.
  destruct (Datetime.field 1 2 0 59 s8) as [[M s9]|] eqn:E9; auto.
  destruct (Datetime.lit 58 s9) as [s10|] eqn:E10; auto.
  destruct (Datetime.field 1 2 0 61 s10) as [[sec s11]|] eqn:E11; auto.
  destruct (Datetime.lit 46 s11) as [s12|] eqn:E12; auto.
  exfalso. apply Hdot.
  apply field_incl in E1, E3, E7, E9, E11.
  apply lit_incl in E2, E4, E8, E10.
  apply field_day_incl in E5. apply blanks_incl in E6. apply lit_In in E12.
  apply E1, E2, E3, E4, E5, E6, E7, E8, E9, E10, E11, E12.
Qed.

Lemma history_lines_raise records d t :
  In (d, t) records -> Datetime.strptime d = None ->
  history_lines records = None.
Proof.
  induction records as [|[d' t'] rest IH]; simpl; [tauto|].
  intros [E|Hin] Hd.
  - injection E as -> ->. rewrite Hd. reflexivity.
  - destruct (Datetime.strptime d'); auto. rewrite (IH Hin Hd). reflexivity.
Qed.

Lemma listing_lines_raise records n d t :
  In (n, d, t) records -> Datetime.strptime d = None ->
  listing_lines records = None.
Proof.
  induction records as [|[[n' d'] t'] rest IH]; simpl; [tauto|].
  intros [E|Hin] Hd.
  - injection E as -> -> ->. rewrite Hd. reflexivity.
  - destruct (Datetime.strptime d'); auto. rewrite (IH Hin Hd). reflexivity.
Qed.

(** ** Decimal digits and the order of stored dates *)

Section Digits.

Import Decimal DecimalFacts.

Lemma digits_length d : length (Str.digits_of_uint d) = nb_digits d.
Proof. induction d; simpl; auto. Qed.

Lemma usize_nb_digits d : DecimalPos.Unsigned.usize d = N.of_nat (nb_digits d).
Proof.
  induction d; cbn [DecimalPos.Unsigned.usize nb_digits]; rewrite ?Nat2N.inj_succ;
    try rewrite IHd; reflexivity.
Qed.

Lemma hd_le_9 d : (DecimalPos.Unsigned.hd d <= 9)%N.
Proof. destruct d; simpl; lia. Qed.

Lemma nb_digits_tl d : d <> Nil -> nb_digits d = S (nb_digits (DecimalPos.Unsigned.tl d)).
Proof. destruct d; simpl; congruence. Qed.

Lemma digits_cons d :
  d <> Nil ->
  Str.digits_of_uint d
  = (48 + DecimalPos.Unsigned.hd d)%N :: Str.digits_of_uint (DecimalPos.Unsigned.tl d).
Proof. destruct d; simpl; congruence. Qed.

(** The value of a numeral is its first digit at its rank, plus the value
    of the other digits. *)
Lemma of_uint_cons d :
  d <> Nil ->
  N.of_uint d
  = (DecimalPos.Unsigned.hd d * 10 ^ DecimalPos.Unsigned.usize (DecimalPos.Unsigned.tl d)
     + N.of_uint (DecimalPos.Unsigned.tl d))%N.
Proof.
  intros Hd. unfold N.of_uint. rewrite !DecimalPos.Unsigned.of_uint_alt.
  destruct d; try congruence; unfold rev; cbn [revapp DecimalPos.Unsigned.tl DecimalPos.Unsigned.hd];
    rewrite DecimalPos.Unsigned.of_lu_revapp; cbn [DecimalPos.Unsigned.of_lu]; unfold rev; lia.
Qed.

Lemma of_uint_bound d : (N.of_uint d < 10 ^ DecimalPos.Unsigned.usize d)%N.
Proof.
  induction d;
    try (rewrite of_uint_cons by discriminate;
         cbn [DecimalPos.Unsigned.usize DecimalPos.Unsigned.tl DecimalPos.Unsigned.hd];
         rewrite N.pow_succ_r'; lia).
  simpl. lia.
Qed.

(** Numerals of the same number of digits compare as their values. *)
Lemma digits_compare n : forall d1 d2,
  nb_digits d1 = n -> nb_digits d2 = n ->
  Str.compare (Str.digits_of_uint d1) (Str.digits_of_uint d2)
  = (N.of_uint d1 ?= N.of_uint d2)%N.
Proof.
  induction n as [|n IH]; intros d1 d2 H1 H2.
  - apply nb_digits_0 in H1, H2. subst. reflexivity.
  - assert (d1 <> Nil) as N1 by (intros ->; discriminate).
    assert (d2 <> Nil) as N2 by (intros ->; discriminate).
    rewrite (nb_digits_tl N1) in H1. rewrite (nb_digits_tl N2) in H2.
    injection H1 as H1. injection H2 as H2.
    rewrite (digits_cons N1), (digits_cons N2).
    rewrite (of_uint_cons N1), (of_uint_cons N2).
    rewrite !usize_nb_digits, H1, H2.
    pose proof (of_uint_bound (DecimalPos.Unsigned.tl d1)) as B1.
    pose proof (of_uint_bound (DecimalPos.Unsigned.tl d2)) as B2.
    rewrite usize_nb_digits, H1 in B1. rewrite usize_nb_digits, H2 in B2.
    pose proof (hd_le_9 d1). pose proof (hd_le_9 d2).
    cbn [Str.compare]. rewrite (IH _ _ H1 H2).
    set (X := (10 ^ N.of_nat n)%N) in *.
    destruct (N.compare_spec (48 + DecimalPos.Unsigned.hd d1) (48 + DecimalPos.Unsigned.hd d2))
      as [E|E|E].
    + assert (DecimalPos.Unsigned.hd d1 = DecimalPos.Unsigned.hd d2) as -> by lia.
      destruct (N.compare_spec (N.of_uint (DecimalPos.Unsigned.tl d1))
                               (N.of_uint (DecimalPos.Unsigned.tl d2)));
        symmetry;
        [apply N.compare_eq_iff | apply N.compare_lt_iff | apply N.compare_gt_iff];
        lia.
    + symmetry. apply N.compare_lt_iff. nia.
    + symmetry. apply N.compare_gt_iff. nia.
Qed.

Lemma to_uint_normal n : unorm (N.to_uint n) = N.to_uint n.
Proof.
  rewrite <- (DecimalN.Unsigned.of_to n) at 2. rewrite DecimalN.Unsigned.to_of. reflexivity.
Qed.

(** A normal numeral is zero or begins with a digit that is not zero. *)
Lemma normal_numeral d :
  unorm d = d -> d = zero \/ (d <> Nil /\ (1 <= DecimalPos.Unsigned.hd d)%N).
Proof.
  intros Hnorm.
  destruct d; try (right; split; [discriminate | simpl; lia]).
  - discriminate.
  - left. unfold unorm in Hnorm. simpl in Hnorm.
    destruct (nzhead d) eqn:E;
      try (exfalso; apply (nzhead_nonzero d d); congruence).
    exact (eq_sym Hnorm).
Qed.

(** A number below [10 ^ w] has at most [w] digits. *)
Lemma nb_digits_to_uint w n :
  (1 <= w)%nat -> (n < 10 ^ N.of_nat w)%N -> (nb_digits (N.to_uint n) <= w)%nat.
Proof.
  intros Hw Hn.
  pose proof (to_uint_normal n) as Hnorm.
  pose proof (DecimalN.Unsigned.of_to n) as Hval.
  destruct (normal_numeral Hnorm) as [E|[Hd Hhd]].
  - rewrite E. simpl. lia.
  - rewrite (of_uint_cons Hd) in Hval.
    rewrite (nb_digits_tl Hd). rewrite usize_nb_digits in Hval.
    set (k := nb_digits (DecimalPos.Unsigned.tl (N.to_uint n))) in *.
    assert (10 ^ N.of_nat k < 10 ^ N.of_nat w)%N as Hpow by nia.
    apply N.pow_lt_mono_r_iff in Hpow; lia.
Qed.

(** The numeral [zfill] writes: that of the number, with zeros in
    front. *)
Lemma zfill_numeral w n :
  Str.zfill w n
  = Str.digits_of_uint
      (Nat.iter (w - nb_digits (N.to_uint n)) D0 (N.to_uint n)).
Proof.
  unfold Str.zfill, Str.of_N. rewrite digits_length.
  induction (w - nb_digits (N.to_uint n))%nat as [|k IH]; simpl; auto.
  rewrite IH. reflexivity.
Qed.

Lemma of_uint_iter_D0 k d : N.of_uint (Nat.iter k D0 d) = N.of_uint d.
Proof. induction k; simpl; auto. Qed.

Lemma nb_digits_iter k d : nb_digits (Nat.iter k D0 d) = (k + nb_digits d)%nat.
Proof. induction k; simpl; auto. Qed.

Lemma zfill_length w n :
  (1 <= w)%nat -> (n < 10 ^ N.of_nat w)%N -> length (Str.zfill w n) = w.
Proof.
  intros Hw Hn. pose proof (nb_digits_to_uint Hw Hn).
  rewrite zfill_numeral, digits_length, nb_digits_iter. lia.
Qed.

Lemma zfill_compare w a b :
  (1 <= w)%nat -> (a < 10 ^ N.of_nat w)%N -> (b < 10 ^ N.of_nat w)%N ->
  Str.compare (Str.zfill w a) (Str.zfill w b) = (a ?= b)%N.
Proof.
  intros Hw Ha Hb.
  pose proof (nb_digits_to_uint Hw Ha). pose proof (nb_digits_to_uint Hw Hb).
  rewrite !zfill_numeral.
  rewrite (@digits_compare w) by (rewrite nb_digits_iter; lia).
  rewrite !of_uint_iter_D0, !DecimalN.Unsigned.of_to. reflexivity.
Qed.

Lemma compare_app x y u v :
  length x = length y ->
  Str.compare (x ++ u) (y ++ v)
  = match Str.compare x y with Eq => Str.compare u v | c => c end.
Proof.
  revert y; induction x as [|a x IH]; intros [|b y]; simpl; try discriminate; auto.
  intros H. injection H as H. destruct (a ?= b)%N; auto.
Qed.

Lemma compare_same_prefix l x y :
  Str.compare (l ++ x) (l ++ y) = Str.compare x y.
Proof. rewrite compare_app, str_compare_refl; reflexivity. Qed.

Lemma days_in_month_le y m : (Datetime.days_in_month y m <= 31)%N.
Proof.
  unfold Datetime.days_in_month.
  repeat match goal with
         | |- context [match ?x with _ => _ end] => destruct x
         | |- context [if ?x then _ else _] => destruct x
         end; lia.
Qed.

Lemma valid_bounds d :
  Datetime.valid d = true ->
  (year d < 10 ^ N.of_nat 4 /\ month d < 10 ^ N.of_nat 2
   /\ day d < 10 ^ N.of_nat 2 /\ hour d < 10 ^ N.of_nat 2
   /\ minute d < 10 ^ N.of_nat 2 /\ second d < 10 ^ N.of_nat 2
   /\ microsecond d < 10 ^ N.of_nat 6)%N.
Proof.
  unfold Datetime.valid. rewrite !andb_true_iff, !N.leb_le.
  pose proof (days_in_month_le (year d) (month d)).
  change (10 ^ N.of_nat 4)%N with 10000%N.
  change (10 ^ N.of_nat 2)%N with 100%N.
  change (10 ^ N.of_nat 6)%N with 1000000%N.
  lia.
Qed.

(** The fraction of the text: absent at microsecond zero, and then below
    every fraction that is written. *)
Lemma fraction_compare a b :
  (a < 10 ^ N.of_nat 6)%N -> (b < 10 ^ N.of_nat 6)%N ->
  Str.compare (if (a =? 0)%N then [] else py "." ++ Str.zfill 6 a)
              (if (b =? 0)%N then [] else py "." ++ Str.zfill 6 b)
  = (a ?= b)%N.
Proof.
  intros Ha Hb.
  destruct (N.eqb_spec a 0) as [->|Na]; destruct (N.eqb_spec b 0) as [->|Nb].
  - reflexivity.
  - symmetry. apply N.compare_lt_iff. lia.
  - symmetry. apply N.compare_gt_iff. lia.
  - rewrite compare_same_prefix. apply zfill_compare; auto; lia.
Qed.

(** Texts of valid dates compare as the instants do: ORDER BY on the
    stored text is the order of time. *)
Lemma isoformat_compare a b :
  Datetime.valid a = true -> Datetime.valid b = true ->
  Str.compare (Datetime.isoformat a) (Datetime.isoformat b)
  = datetime_compare a b.
Proof.
  intros Va Vb.
  destruct (valid_bounds _ Va) as (Ya & Ma & Da & ha & ma & sa & ua).
  destruct (valid_bounds _ Vb) as (Yb & Mb & Db & hb & mb & sb & ub).
  unfold Datetime.isoformat, datetime_compare.
  repeat
    (rewrite compare_app by (rewrite !zfill_length by (auto; lia); reflexivity);
     rewrite zfill_compare by (auto; lia);
     match goal with
     | |- match ?c with _ => _ end = _ => destruct c; try reflexivity
     end;
     rewrite ?compare_same_prefix).
  apply fraction_compare; assumption.
Qed.

Lemma datetime_compare_eq a b : datetime_compare a b = Eq -> a = b.
Proof.
  unfold datetime_compare. destruct a, b; simpl.
  repeat match goal with
         | |- match (?x ?= ?y)%N with _ => _ end = Eq -> _ =>
             destruct (N.compare_spec x y); try discriminate; subst
         end.
  intros H. apply N.compare_eq_iff in H. subst. reflexivity.
Qed.

(** Two valid instants are stored as the same text only when they are
    the same instant, and the earlier one as the smaller text. *)
Lemma adapt_datetime_order a b :
  Datetime.valid a = true -> Datetime.valid b = true ->
  (Datetime.adapt_datetime a = Datetime.adapt_datetime b <-> a = b)
  /\ (Str.ltb (Datetime.adapt_datetime a) (Datetime.adapt_datetime b) = true
      <-> datetime_compare a b = Lt).
Proof.
  intros Va Vb. unfold Datetime.adapt_datetime, Str.ltb.
  rewrite <- str_compare_eq, (isoformat_compare a b Va Vb). split.
  - split; [apply datetime_compare_eq|].
    intros ->. rewrite <- (isoformat_compare b b Vb Vb). apply str_compare_refl.
  - destruct (datetime_compare a b); split; congruence.
Qed.

End Digits.

(** A row listed before another was not stored at an earlier instant. *)
Lemma before_by_the_clock a b ta tb :
  before a b ->
  Datetime.valid ta = true -> Datetime.valid tb = true ->
  date a = Datetime.adapt_datetime ta -> date b = Datetime.adapt_datetime tb ->
  datetime_compare ta tb <> Lt.
Proof.
  intros Hab Va Vb Ea Eb Hlt.
  apply (adapt_datetime_order ta tb Va Vb) in Hlt.
  rewrite <- Ea, <- Eb in Hlt.
  rewrite (before_not_later Hab) in Hlt. discriminate.
Qed.

(** When the clock has moved on since every record of the sender was
    stored, the record just stored is the first of the history. *)
Lemma append_then_query_by_the_clock
    (now : datetime) (number name : str) (title : option str) (db : Database)
    (stored_at : Row -> datetime) :
  Datetime.valid now = true ->
  (forall r, In r (where_whatsapp_number number (participations db)) ->
     Datetime.valid (stored_at r) = true
     /\ date r = Datetime.adapt_datetime (stored_at r)
     /\ datetime_compare (stored_at r) now = Lt) ->
  hd_error (get_user_history number
              (add_participation now number name title db))
  = Some (Datetime.adapt_datetime now, title).
Proof.
  intros Vnow Hrows. unfold get_user_history.
  rewrite user_history_rows_add; [reflexivity|].
  apply forallb_forall. intros r Hr.
  destruct (Hrows r Hr) as (Vr & Er & Hlt).
  rewrite Er. apply (adapt_datetime_order (stored_at r) now Vr Vnow). exact Hlt.
Qed.

(** ** The webhook *)

Section Webhook.

Variable lower : str -> str.
Variable to_datetime_strftime : list str -> option (str -> str).
Variable cfg : Config.

#[local] Abbreviation webhook :=
  (whatsapp_webhook lower to_datetime_strftime cfg).
#[local] Abbreviation report :=
  (generate_and_send_report to_datetime_strftime cfg).

(** A run that completes leaves the table as it was. *)
Lemma generate_and_send_report_database request on_demand w w' :
  report request on_demand w = Completed w' -> database w' = database w.
Proof.
  unfold generate_and_send_report.
  destruct (participations (database w)).
  - destruct on_demand; intros E; injection E as <-; reflexivity.
  - destruct (to_datetime_strftime _); [|discriminate].
    intros E; injection E as <-; reflexivity.
Qed.

(** Whatever the message, the table after the handler is one the
    operations of the ledger produce. *)
Lemma whatsapp_webhook_reachable now req w :
  reachable (database w) -> reachable (database (fst (webhook now req w))).
Proof.
  intros H. unfold whatsapp_webhook.
  destruct (Str.startswith_any _ _); [apply reachable_add, H|].
  destruct (Str.eqb _ (py "/meu historico")).
  { destruct (get_user_history _ _); [exact H|].
    destruct (history_lines _); exact H. }
  destruct (Str.eqb _ (py "/ajuda")); [exact H|].
  destruct (is_admin cfg _); [|exact H].
  destruct (Str.eqb _ (py "/relatorio agora")).
  { destruct (report (Some req) true w) as [w'|] eqn:E; [|exact H].
    simpl. rewrite (generate_and_send_report_database _ _ _ E). exact H. }
  destruct (Str.eqb _ (py "/ultimos registros")).
  { destruct (get_last_10_records _); [exact H|].
    destruct (listing_lines _); exact H. }
  destruct (Str.startswith _ (py "/corrigir ultimo")); [|exact H].
  destruct (2 <? _)%nat; [exact H|].
  pose proof (reachable_delete (get (From req) []) H) as Hd.
  destruct (delete_last_user_record _ _) as [db' [|]]; simpl in *; auto.
Qed.

(** C5. For a message whose lowered text begins with a trigger word: when
    the text has a colon, the label stored is what follows the first colon,
    stripped; when it has none, the label is NULL; either way the reply is
    the confirmation.  The text "Participei: clipe final" is recorded with
    the label "clipe final". *)
Theorem record_label_parsing (now : datetime) (req : Request) (w : World) :
  let incoming_msg := Str.strip (get (Body req) []) in
  (Str.startswith_any (lower incoming_msg) record_triggers = true ->
   (Str.contains colon incoming_msg = true ->
    exists pre post,
      incoming_msg = pre ++ colon :: post /\ ~ In colon pre
      /\ webhook now req w = recorded now req w (Some (Str.strip post)))
   /\ (Str.contains colon incoming_msg = false ->
       webhook now req w = recorded now req w None))
  /\ (Body req = Some (py "Participei: clipe final") ->
      lower (py "Participei: clipe final") = py "participei: clipe final" ->
      webhook now req w = recorded now req w (Some (py "clipe final"))).
Proof.
  intros incoming_msg. split.
  - intros Htrig. split.
    + intros Hc. destruct (contains_split _ _ Hc) as (pre & post & E & Hpre).
      exists pre, post. repeat split; auto.
      unfold whatsapp_webhook, recorded.
      fold incoming_msg. rewrite Htrig, Hc, E, split1_first by exact Hpre.
      reflexivity.
    + intros Hc. unfold whatsapp_webhook, recorded.
      fold incoming_msg. rewrite Htrig, Hc. reflexivity.
  - intros HBody Hlower. unfold whatsapp_webhook, recorded.
    subst incoming_msg. rewrite HBody.
    change (Str.strip (get (Some (py "Participei: clipe final")) []))
      with (py "Participei: clipe final").
    rewrite Hlower. reflexivity.
Qed.
(** C10. For a trigger message whose text has a colon followed by nothing
    but whitespace, the webhook appends one row to the table, under the
    next id, with the sender, the name and the time of the message, whose
    label is the empty text; a message without a colon appends the same
    row with the label NULL.  The row with the empty label is then in the
    table and in the history of the sender, and the history and the
    listing show the empty label as they show a NULL one, with no title
    after the date. *)
Theorem blank_label_is_empty (now : datetime) (req : Request) (w : World) :
  let incoming_msg := Str.strip (get (Body req) []) in
  let from_number := get (From req) [] in
  let name := get (ProfileName req) from_number in
  let stored label :=
    mkRow (sqlite_sequence (database w) + 1)%Z from_number name
          (Datetime.adapt_datetime now) label in
  let after label :=
    (mkWorld (mkDatabase (participations (database w) ++ [stored label])
                         (sqlite_sequence (database w) + 1)%Z)
             (sent w) (files w),
     Twiml (confirmation name)) in
  Str.startswith_any (lower incoming_msg) record_triggers = true ->
  (forall pre post,
     incoming_msg = pre ++ colon :: post -> ~ In colon pre ->
     forallb Str.isspace post = true ->
     webhook now req w = after (Some [])
     /\ In (stored (Some []))
           (participations (database (fst (webhook now req w)))))
  /\ (forall pre post,
        get (Body req) [] = pre ++ colon :: post -> ~ In colon pre ->
        forallb Str.isspace post = true ->
        webhook now req w = after (Some [])
        /\ In (stored (Some []))
              (participations (database (fst (webhook now req w))))
        /\ In (Datetime.adapt_datetime now, Some [])
              (get_user_history from_number
                 (database (fst (webhook now req w)))))
  /\ (Str.contains colon incoming_msg = false ->
      webhook now req w = after None
      /\ In (stored None)
            (participations (database (fst (webhook now req w)))))
  /\ video_title (stored (Some [])) = Some []
  /\ video_title (stored None) = None
  /\ stored (Some []) <> stored None
  /\ history_title_info (Some []) = [] /\ history_title_info None = []
  /\ listing_title_info (Some []) = [] /\ listing_title_info None = []
  /\ (forall date rest,
        history_lines ((date, Some []) :: rest)
        = history_lines ((date, None) :: rest))
  /\ (forall name date rest,
        listing_lines ((name, date, Some []) :: rest)
        = listing_lines ((name, date, None) :: rest)).
Proof.
  intros incoming_msg from_number name stored after Htrig.
  assert (forall pre post,
            incoming_msg = pre ++ colon :: post -> ~ In colon pre ->
            forallb Str.isspace post = true ->
            webhook now req w = after (Some [])) as Hstripped.
  { intros pre post E Hpre Hblank.
    unfold whatsapp_webhook, after, stored, name, from_number.
    fold incoming_msg.
    assert (Str.contains colon incoming_msg = true) as Hc.
    { rewrite E. unfold Str.contains. rewrite existsb_app. cbn [existsb].
      rewrite N.eqb_refl. apply orb_true_r. }
    rewrite Htrig, Hc, E, split1_first by exact Hpre. simpl nth.
    rewrite (strip_blank _ Hblank). reflexivity. }
  assert (forall label,
            In (stored label)
               (participations (database (fst (after label))))) as Hin.
  { intros label. unfold after. cbn [fst database participations].
    apply in_or_app. right. left. reflexivity. }
  split; [|split; [|split]].
  - intros pre post E Hpre Hblank.
    rewrite (Hstripped pre post E Hpre Hblank).
    split; [reflexivity | apply Hin].
  - intros pre post E Hpre Hblank.
    destruct (strip_colon_blank pre post Hpre Hblank) as (pre' & E' & Hpre').
    assert (incoming_msg = pre' ++ colon :: []) as E''
      by (unfold incoming_msg; rewrite E; exact E').
    rewrite (Hstripped pre' [] E'' Hpre' eq_refl).
    split; [reflexivity|]. split; [apply Hin|].
    unfold get_user_history. apply in_map_iff.
    exists (stored (Some [])). split; [reflexivity|].
    apply order_by_date_desc_In, where_whatsapp_number_In.
    split; [apply Hin | reflexivity].
  - intros Hc.
    assert (webhook now req w = after None) as ->.
    { unfold whatsapp_webhook, after, stored, name, from_number.
      fold incoming_msg. rewrite Htrig, Hc. reflexivity. }
    split; [reflexivity | apply Hin].
  - split; [reflexivity|]. split; [reflexivity|].
    split; [discriminate|]. repeat split; reflexivity.
Qed.

(** C7. A message that is none of the commands, the empty text among
    them, changes nothing and is answered with the empty 204 answer. *)
Theorem unrecognized_is_silent (now : datetime) (req : Request) (w : World) :
  (spec_command lower cfg (get (Body req) []) (get (From req) []) = Unrecognized ->
   webhook now req w = (w, NoContent204))
  /\ (lower [] = [] -> Str.strip (get (Body req) []) = [] ->
      spec_command lower cfg (get (Body req) []) (get (From req) []) = Unrecognized
      /\ webhook now req w = (w, NoContent204)).
Proof.
  assert (spec_command lower cfg (get (Body req) []) (get (From req) [])
          = Unrecognized -> webhook now req w = (w, NoContent204)) as Hmain.
  { unfold spec_command, whatsapp_webhook.
    destruct (Str.startswith_any _ record_triggers); [discriminate|].
    destruct (Str.eqb _ (py "/meu historico")); [discriminate|].
    destruct (Str.eqb _ (py "/ajuda")); [discriminate|].
    destruct (is_admin cfg _); [|reflexivity].
    destruct (Str.eqb _ (py "/relatorio agora")); [discriminate|].
    destruct (Str.eqb _ (py "/ultimos registros")); [discriminate|].
    destruct (Str.startswith _ (py "/corrigir ultimo")); [discriminate|].
    reflexivity. }
  split; [exact Hmain|].
  intros Hlower Hempty.
  assert (spec_command lower cfg (get (Body req) []) (get (From req) [])
          = Unrecognized) as Hspec.
  { unfold spec_command. rewrite Hempty, Hlower.
    destruct (is_admin cfg _); reflexivity. }
  split; auto.
Qed.

(** C8. For a message of the administrator that begins with
    "/corrigir ultimo" and has more than two parts, the world (the table
    with it) is as it was, and the answer is the empty 204 answer. *)
Theorem fix_last_for_other_sender_is_noop
    (now : datetime) (req : Request) (w : World) :
  let msg_lower := lower (Str.strip (get (Body req) [])) in
  is_admin cfg (get (From req) []) = true ->
  Str.startswith msg_lower (py "/corrigir ultimo") = true ->
  (2 < length (Str.split_ws msg_lower))%nat ->
  webhook now req w = (w, NoContent204)
  /\ database (fst (webhook now req w)) = database w.
Proof.
  intros msg_lower Hadmin Hprefix Hparts.
  assert (webhook now req w = (w, NoContent204)) as H.
  { unfold whatsapp_webhook. fold msg_lower. rewrite Hadmin.
    apply Nat.ltb_lt in Hparts. rewrite Hparts, Hprefix.
    destruct (startswith_app _ _ Hprefix) as (rest & ->).
    reflexivity. }
  rewrite H. split; reflexivity.
Qed.

(** C6. On an empty ledger the report on demand sends one message, the
    "no records" one, and writes no file; the scheduled report sends
    nothing and writes nothing. *)
Theorem empty_ledger_report (request : option Request) (w : World) :
  participations (database w) = [] ->
  (exists on_demand,
     report request true w = Completed on_demand
     /\ sent on_demand
        = sent w ++ [mkMessage (TWILIO_PHONE_NUMBER cfg) no_records_body
                               (ADMIN_PHONE_NUMBER cfg)]
     /\ files on_demand = files w
     /\ database on_demand = database w)
  /\ report request false w = Completed w
  /\ scheduled_report to_datetime_strftime cfg w = Completed w.
Proof.
  intros Hempty. unfold scheduled_report, generate_and_send_report.
  rewrite Hempty. split; [|split; reflexivity].
  eexists. split; [reflexivity|]. repeat split; reflexivity.
Qed.

(** C9 fails where the clock read a whole second. A row whose date was
    stored from a time with microsecond zero has a date without fraction,
    which [strptime] does not accept: the history of its sender, and the
    listing when the row is among the ten, end in an error and not in a
    reply. *)
Theorem whole_second_date_is_not_parsed
    (created : datetime) (r : Row) (now : datetime) (req : Request) (w : World) :
  microsecond created = 0%N ->
  date r = Datetime.adapt_datetime created ->
  Datetime.strptime (date r) = None
  /\ (lower (Str.strip (get (Body req) [])) = py "/meu historico" ->
      In r (participations (database w)) ->
      whatsapp_number r = get (From req) [] ->
      webhook now req w = (w, InternalServerError))
  /\ (lower (Str.strip (get (Body req) [])) = py "/ultimos registros" ->
      is_admin cfg (get (From req) []) = true ->
      In r (last_10_rows (database w)) ->
      webhook now req w = (w, InternalServerError)).
Proof.
  intros Hus Hdate.
  assert (Datetime.strptime (date r) = None) as Hnone.
  { rewrite Hdate. apply strptime_needs_dot.
    apply isoformat_without_fraction. exact Hus. }
  split; [exact Hnone|]. split.
  - intros Hlower Hin Hnum. unfold whatsapp_webhook. rewrite Hlower.
    change (Str.startswith_any (py "/meu historico") record_triggers) with false.
    change (Str.eqb (py "/meu historico") (py "/meu historico")) with true.
    cbv iota.
    assert (In (date r, video_title r)
               (get_user_history (get (From req) []) (database w))) as Hrow.
    { unfold get_user_history.
      apply (in_map (fun x => (date x, video_title x))).
      apply order_by_date_desc_In, where_whatsapp_number_In. auto. }
    destruct (get_user_history (get (From req) []) (database w)) as [|x l];
      [contradiction|].
    rewrite (history_lines_raise _ _ _ Hrow Hnone). reflexivity.
  - intros Hlower Hadmin Hin. unfold whatsapp_webhook. rewrite Hlower, Hadmin.
    change (Str.startswith_any (py "/ultimos registros") record_triggers)
      with false.
    change (Str.eqb (py "/ultimos registros") (py "/meu historico")) with false.
    change (Str.eqb (py "/ultimos registros") (py "/ajuda")) with false.
    change (Str.eqb (py "/ultimos registros") (py "/relatorio agora")) with false.
    change (Str.eqb (py "/ultimos registros") (py "/ultimos registros")) with true.
    cbv iota.
    assert (In (profile_name r, date r, video_title r)
               (get_last_10_records (database w))) as Hrow.
    { unfold get_last_10_records.
      apply (in_map (fun x => (profile_name x, date x, video_title x))).
      exact Hin. }
    destruct (get_last_10_records (database w)) as [|x l]; [contradiction|].
    rewrite (listing_lines_raise _ _ _ _ Hrow Hnone). reflexivity.
Qed.

End Webhook.

(** ** The theorems at sample messages *)

Lemma record_label_parsing_witness :
  Str.startswith_any (ascii_lower (Str.strip (get (Body req_participei) [])))
                     record_triggers = true
  /\ Body req_participei = Some (py "Participei: clipe final")
  /\ ascii_lower (py "Participei: clipe final") = py "participei: clipe final"
  /\ whatsapp_webhook ascii_lower pandas_dates no_config noon req_participei
       world_ana_bia
     = recorded noon req_participei world_ana_bia (Some (py "clipe final"))
  /\ exists pre post,
       Str.strip (get (Body req_participei) []) = pre ++ colon :: post
       /\ whatsapp_webhook ascii_lower pandas_dates no_config noon req_participei
            world_ana_bia
          = recorded noon req_participei world_ana_bia (Some (Str.strip post)).
Proof.
  destruct (record_label_parsing ascii_lower pandas_dates no_config noon
              req_participei world_ana_bia) as [Hgen Hscenario].
  split; [reflexivity|]. split; [reflexivity|]. split; [reflexivity|].
  split.
  - apply Hscenario; reflexivity.
  - destruct (Hgen eq_refl) as [Hcolon _].
    destruct (Hcolon eq_refl) as (pre & post & E & _ & H).
    exists pre, post. split; assumption.
Defined.

Lemma blank_label_is_empty_witness :
  Str.startswith_any (ascii_lower (Str.strip (get (Body req_blank_label) [])))
                     record_triggers = true
  /\ get (Body req_blank_label) [] = py "  Gravei" ++ colon :: py "   "
  /\ whatsapp_webhook ascii_lower pandas_dates no_config noon req_blank_label
       empty_world
     = (mkWorld
          (mkDatabase
             [mkRow 1 sender_a ana (Datetime.adapt_datetime noon) (Some [])] 1)
          [] [],
        Twiml (confirmation ana)).
Proof.
  split; [reflexivity|]. split; [reflexivity|].
  destruct (blank_label_is_empty ascii_lower pandas_dates no_config noon
              req_blank_label empty_world eq_refl) as (_ & Hraw & _).
  destruct (Hraw (py "  Gravei") (py "   ")) as [H _].
  - reflexivity.
  - vm_compute. intuition discriminate.
  - reflexivity.
  - exact H.
Defined.

Lemma unrecognized_is_silent_witness :
  spec_command ascii_lower config_bia (get (Body req_bom_dia) [])
               (get (From req_bom_dia) []) = Unrecognized
  /\ whatsapp_webhook ascii_lower pandas_dates config_bia noon req_bom_dia
       world_ana_bia = (world_ana_bia, NoContent204)
  /\ ascii_lower [] = []
  /\ Str.strip (get (Body req_empty) []) = []
  /\ whatsapp_webhook ascii_lower pandas_dates config_bia noon req_empty
       world_ana_bia = (world_ana_bia, NoContent204).
Proof.
  split; [reflexivity|]. split.
  - destruct (unrecognized_is_silent ascii_lower pandas_dates config_bia noon
                req_bom_dia world_ana_bia) as [Hmain _].
    apply Hmain. reflexivity.
  - split; [reflexivity|]. split; [reflexivity|].
    destruct (unrecognized_is_silent ascii_lower pandas_dates config_bia noon
                req_empty world_ana_bia) as [_ Hempty].
    apply Hempty; reflexivity.
Defined.

Lemma fix_last_for_other_sender_is_noop_witness :
  is_admin config_bia (get (From req_fix_other) []) = true
  /\ Str.startswith (ascii_lower (Str.strip (get (Body req_fix_other) [])))
                    (py "/corrigir ultimo") = true
  /\ (2 < length (Str.split_ws
                    (ascii_lower (Str.strip (get (Body req_fix_other) [])))))%nat
  /\ whatsapp_webhook ascii_lower pandas_dates config_bia noon req_fix_other
       world_ana_bia = (world_ana_bia, NoContent204).
Proof.
  split; [reflexivity|]. split; [reflexivity|]. split; [vm_compute; lia|].
  apply (fix_last_for_other_sender_is_noop ascii_lower pandas_dates config_bia
           noon req_fix_other world_ana_bia).
  - reflexivity.
  - reflexivity.
  - vm_compute. lia.
Defined.

Lemma empty_ledger_report_witness :
  participations (database empty_world) = []
  /\ (exists on_demand,
        generate_and_send_report pandas_dates config_bia None true empty_world
        = Completed on_demand
        /\ sent on_demand
           = [mkMessage (TWILIO_PHONE_NUMBER config_bia) no_records_body
                        (ADMIN_PHONE_NUMBER config_bia)])
  /\ scheduled_report pandas_dates config_bia empty_world
     = Completed empty_world.
Proof.
  split; [reflexivity|].
  destruct (empty_ledger_report pandas_dates config_bia None empty_world eq_refl)
    as ((w' & Hrun & Hsent & _) & _ & Hsched).
  split; [|exact Hsched]. exists w'. split; assumption.
Defined.

Lemma whole_second_date_is_not_parsed_witness :
  microsecond on_the_second = 0%N
  /\ date row_whole_second = Datetime.adapt_datetime on_the_second
  /\ date row_whole_second = py "2024-03-01 12:00:00"
  /\ In row_whole_second (participations (database world_whole_second))
  /\ whatsapp_webhook ascii_lower pandas_dates config_bia noon req_history
       world_whole_second = (world_whole_second, InternalServerError)
  /\ whatsapp_webhook ascii_lower pandas_dates config_bia noon req_listing
       world_whole_second = (world_whole_second, InternalServerError).
Proof.
  split; [reflexivity|]. split; [reflexivity|]. split; [reflexivity|].
  split; [left; reflexivity|].
  destruct (whole_second_date_is_not_parsed ascii_lower pandas_dates config_bia
              on_the_second row_whole_second noon req_history
              world_whole_second eq_refl eq_refl) as (_ & Hhistory & _).
  destruct (whole_second_date_is_not_parsed ascii_lower pandas_dates config_bia
              on_the_second row_whole_second noon req_listing
              world_whole_second eq_refl eq_refl) as (_ & _ & Hlisting).
  split.
  - apply Hhistory; [reflexivity | left; reflexivity | reflexivity].
  - apply Hlisting; [reflexivity | reflexivity | left; reflexivity].
Defined.

(** A date stored with a fraction is read back, and the history shows it. *)
Example strptime_with_fraction :
  Datetime.adapt_datetime noon = py "2024-03-01 12:00:00.500000"
  /\ Datetime.strptime (Datetime.adapt_datetime noon) = Some noon
  /\ Datetime.strptime (py "2024-03-01 12:00:00") = None.
Proof. repeat split; reflexivity. Qed.

Example history_reply :
  whatsapp_webhook ascii_lower pandas_dates no_config noon req_history
    world_ana_bia
  = (world_ana_bia,
     Twiml (py "Olá, Ana! Você participou *1* vez(es)." ++ nl ++ nl
            ++ py "*Datas*:" ++ nl ++ py "- 01/03/2024 (Vídeo: x)" ++ nl)).
Proof. vm_compute. reflexivity. Qed.

Example listing_reply :
  whatsapp_webhook ascii_lower pandas_dates config_bia noon req_listing
    world_ana_bia
  = (world_ana_bia,
     Twiml (py "*Últimos 10 Registros*:" ++ nl ++ nl
            ++ py "- Bia em 01/03 12:00" ++ nl
            ++ py "- Ana em 01/03 10:00 (x)" ++ nl)).
Proof. vm_compute. reflexivity. Qed.

Example undo_reply :
  whatsapp_webhook ascii_lower pandas_dates config_bia noon
    (request_of (py "/corrigir ultimo") sender_b bia) world_ana_bia
  = (mkWorld
       (mkDatabase
          [mkRow 1 sender_a ana (Datetime.adapt_datetime morning) (Some (py "x"))]
          2) [] [],
     Twiml (py "✅ Seu último registro de participação foi removido. Por favor, registre novamente se necessário.")).
Proof. vm_compute. reflexivity. Qed.

(** * Further properties of the ledger *)

Lemma sorted_ids_NoDup rows :
  StronglySorted id_lt rows -> NoDup (map id rows).
Proof.
  induction 1 as [|r rows Hs IH Hr]; simpl; constructor; auto.
  intros Hin. apply in_map_iff in Hin. destruct Hin as (x & Hx & Hin).
  rewrite Forall_forall in Hr. specialize (Hr x Hin).
  unfold id_lt in Hr. lia.
Qed.

Lemma delete_last_sequence number db :
  sqlite_sequence (fst (delete_last_user_record number db)) = sqlite_sequence db.
Proof.
  unfold delete_last_user_record.
  destruct (firstn 1 (user_history_rows number db)); reflexivity.
Qed.

Lemma delete_last_rows_incl number db r :
  In r (participations (fst (delete_last_user_record number db))) ->
  In r (participations db).
Proof.
  unfold delete_last_user_record.
  destruct (firstn 1 (user_history_rows number db)); simpl; auto.
  unfold delete_where_id. rewrite filter_In. tauto.
Qed.

Lemma steps_wf db db' : wf db -> steps db db' -> wf db'.
Proof.
  intros Hwf. induction 1; auto using wf_add, wf_delete_last.
Qed.

(** Whatever is done later, the counter does not go down and a row of
    the later table is a row of the earlier one or has a larger id than
    the counter had. *)
Lemma steps_rows db db' :
  wf db -> steps db db' ->
  (sqlite_sequence db <= sqlite_sequence db')%Z
  /\ forall r, In r (participations db') ->
       In r (participations db) \/ (sqlite_sequence db < id r)%Z.
Proof.
  intros Hwf. induction 1 as [db|now number name title db db' Hst IH
                              |number db db' Hst IH].
  - split; [lia | auto].
  - destruct (IH Hwf) as [Hseq Hrows]. split; [simpl; lia|].
    intros r Hr. simpl in Hr. apply in_app_or in Hr.
    destruct Hr as [Hr|[<-|[]]]; auto. right. simpl. lia.
  - destruct (IH Hwf) as [Hseq Hrows]. rewrite delete_last_sequence.
    split; [exact Hseq|].
    intros r Hr. apply Hrows. eapply delete_last_rows_incl; eauto.
Qed.

(** X1. Ids are unique in every table the operations produce, and the id
    of a deleted record is not given again: after the last record of a
    sender is deleted, no row of any later table carries its id. *)
Theorem deleted_id_is_never_reused (number : str) (db db' : Database) (r : Row) :
  wf db ->
  hd_error (user_history_rows number db) = Some r ->
  steps (fst (delete_last_user_record number db)) db' ->
  NoDup (map id (participations db'))
  /\ forall x, In x (participations db') -> id x <> id r.
Proof.
  intros Hwf Hhd Hsteps.
  pose proof (wf_delete_last number Hwf) as Hwf1.
  pose proof (steps_wf Hwf1 Hsteps) as Hwf'.
  split; [apply sorted_ids_NoDup, Hwf'|].
  destruct (steps_rows Hwf1 Hsteps) as [_ Hrows].
  rewrite delete_last_sequence in Hrows.
  assert (In r (participations db)) as Hr.
  { destruct (user_history_rows number db) as [|r0 rest] eqn:E; [discriminate|].
    injection Hhd as ->.
    destruct (user_history_rows_hd _ Hwf E) as (Hin & _). exact Hin. }
  assert (id r <= sqlite_sequence db)%Z as Hle.
  { destruct Hwf as (_ & Hb & _). rewrite Forall_forall in Hb.
    apply Hb in Hr. lia. }
  intros x Hx. destruct (Hrows x Hx) as [Hold|Hnew]; [|lia].
  unfold delete_last_user_record in Hold.
  destruct (user_history_rows number db) as [|r0 rest]; [discriminate|].
  injection Hhd as ->. simpl in Hold.
  unfold delete_where_id in Hold. apply filter_In in Hold.
  destruct Hold as [_ Hne]. apply negb_true_iff, Z.eqb_neq in Hne. exact Hne.
Qed.

Lemma deleted_id_is_never_reused_witness :
  wf db_ana_bia
  /\ hd_error (user_history_rows sender_a db_ana_bia)
     = Some (mkRow 1 sender_a ana (Datetime.adapt_datetime morning)
                   (Some (py "x")))
  /\ forall x,
       In x (participations
               (add_participation noon sender_a ana None
                  (fst (delete_last_user_record sender_a db_ana_bia)))) ->
       id x <> 1%Z.
Proof.
  assert (wf db_ana_bia) as Hwf by (repeat apply wf_add; apply wf_empty).
  split; [exact Hwf|]. split; [reflexivity|].
  apply (deleted_id_is_never_reused sender_a
           (db' := add_participation noon sender_a ana None
                     (fst (delete_last_user_record sender_a db_ana_bia)))
           Hwf eq_refl).
  apply steps_add, steps_refl.
Defined.

(** The deletion of a last record, row by row. *)
Lemma delete_last_user_record_split number db r rest :
  wf db -> user_history_rows number db = r :: rest ->
  exists l1 l2,
    participations db = l1 ++ r :: l2
    /\ whatsapp_number r = number
    /\ delete_last_user_record number db
       = (mkDatabase (l1 ++ l2) (sqlite_sequence db), true).
Proof.
  intros Hwf E.
  destruct (user_history_rows_hd _ Hwf E) as (Hin & Hnum & _).
  destruct (in_split _ _ Hin) as (l1 & l2 & Hsplit).
  exists l1, l2. repeat split; auto.
  unfold delete_last_user_record. rewrite E. simpl.
  rewrite Hsplit at 1. rewrite delete_where_id_split; auto.
  rewrite <- Hsplit. apply Hwf.
Qed.

Lemma user_history_rows_empty number db :
  user_history_rows number db = [] ->
  delete_last_user_record number db = (db, false).
Proof. intros E. unfold delete_last_user_record. rewrite E. reflexivity. Qed.

(** X2. What one sender records or has deleted does not change the
    history of another sender. *)
Theorem history_of_other_senders_unchanged
    (now : datetime) (number other name : str) (title : option str)
    (db : Database) :
  wf db -> other <> number ->
  get_user_history other (add_participation now number name title db)
  = get_user_history other db
  /\ get_user_history other (fst (delete_last_user_record number db))
     = get_user_history other db.
Proof.
  intros Hwf Hne. unfold get_user_history, user_history_rows. split.
  - simpl. rewrite where_whatsapp_number_app. simpl.
    replace (Str.eqb number other) with false
      by (symmetry; apply str_eqb_neq; congruence).
    rewrite app_nil_r. reflexivity.
  - destruct (user_history_rows number db) as [|r rest] eqn:E.
    + rewrite (user_history_rows_empty _ _ E). reflexivity.
    + destruct (delete_last_user_record_split _ Hwf E)
        as (l1 & l2 & Hsplit & Hnum & Hdel).
      rewrite Hdel, Hsplit. simpl.
      rewrite !where_whatsapp_number_app. simpl.
      replace (Str.eqb (whatsapp_number r) other) with false
        by (symmetry; apply str_eqb_neq; congruence).
      reflexivity.
Qed.

Lemma history_of_other_senders_unchanged_witness :
  wf db_ana_bia /\ sender_b <> sender_a
  /\ get_user_history sender_b (fst (delete_last_user_record sender_a db_ana_bia))
     = get_user_history sender_b db_ana_bia.
Proof.
  assert (wf db_ana_bia) as Hwf by (repeat apply wf_add; apply wf_empty).
  assert (sender_b <> sender_a) as Hne by (vm_compute; discriminate).
  split; [exact Hwf|]. split; [exact Hne|].
  destruct (history_of_other_senders_unchanged noon ana None Hwf Hne)
    as [_ H]. exact H.
Defined.

Lemma StronglySorted_app_between (A : Type) (R : A -> A -> Prop) l1 l2 a b :
  StronglySorted R (l1 ++ l2) -> In a l1 -> In b l2 -> R a b.
Proof.
  induction l1 as [|x l1 IH]; simpl; intros Hs Ha Hb; [contradiction|].
  inversion Hs as [|? ? Hs' Hall]; subst.
  destruct Ha as [->|Ha]; [|eauto].
  rewrite Forall_forall in Hall. apply Hall, in_or_app. auto.
Qed.

(** X3. The listing holds the latest records: a record of the table that
    the ten listed ones leave out is not later than any of them. *)
Theorem listing_holds_the_latest (db : Database) (a b : Row) :
  wf db ->
  In a (last_10_rows db) ->
  not_listed (last_10_rows db) (participations db) b ->
  Str.ltb (date a) (date b) = false.
Proof.
  intros (Hs & _) Ha [Hb Hout]. apply before_not_later.
  apply (@StronglySorted_app_between _ before
           (last_10_rows db)
           (skipn 10 (order_by_date_desc (participations db)))); auto.
  - unfold last_10_rows. rewrite firstn_skipn.
    apply order_by_date_desc_sorted, Hs.
  - apply order_by_date_desc_In in Hb.
    rewrite <- (firstn_skipn 10 (order_by_date_desc (participations db))) in Hb.
    apply in_app_or in Hb. destruct Hb as [Hb|Hb]; [contradiction | exact Hb].
Qed.

Lemma listing_holds_the_latest_witness :
  wf db_eleven
  /\ length (participations db_eleven) = 11%nat
  /\ In eleven_latest (last_10_rows db_eleven)
  /\ not_listed (last_10_rows db_eleven) (participations db_eleven)
                eleven_oldest
  /\ Str.ltb (date eleven_latest) (date eleven_oldest) = false.
Proof.
  pose (latest := eleven_latest). pose (oldest := eleven_oldest).
  change eleven_latest with latest. change eleven_oldest with oldest.
  assert (wf db_eleven) as Hwf.
  { unfold db_eleven. cbn [fold_left]. repeat apply wf_add. apply wf_empty. }
  assert (In latest (last_10_rows db_eleven)) as Hin
    by (vm_compute; left; reflexivity).
  assert (not_listed (last_10_rows db_eleven) (participations db_eleven)
            oldest) as Hout.
  { split; [vm_compute; left; reflexivity|].
    intros H. apply (in_map id) in H.
    replace (map id (last_10_rows db_eleven))
      with [11; 10; 9; 8; 7; 6; 5; 4; 3; 2]%Z in H
      by (vm_compute; reflexivity).
    vm_compute in H. intuition discriminate. }
  split; [exact Hwf|]. split; [reflexivity|].
  split; [exact Hin|]. split; [exact Hout|].
  exact (@listing_holds_the_latest db_eleven latest oldest Hwf Hin Hout).
Defined.

Lemma before_asym a b : before a b -> before b a -> False.
Proof.
  intros [H1|[E1 I1]] [H2|[E2 I2]].
  - exact (str_lt_irrefl (str_lt_trans H1 H2)).
  - rewrite E2 in H1. exact (str_lt_irrefl H1).
  - rewrite E1 in H2. exact (str_lt_irrefl H2).
  - lia.
Qed.

(** Two lists of the same rows, both in the order of the queries, are the
    same list. *)
Lemma sorted_before_unique l1 : forall l2,
  StronglySorted before l1 -> StronglySorted before l2 ->
  Permutation l1 l2 -> l1 = l2.
Proof.
  induction l1 as [|a l1 IH]; intros l2 H1 H2 P.
  - apply Permutation_nil in P. auto.
  - destruct l2 as [|b l2].
    + apply Permutation_sym, Permutation_nil in P. discriminate.
    + inversion H1 as [|? ? H1' A1]; inversion H2 as [|? ? H2' A2]; subst.
      rewrite Forall_forall in A1, A2.
      assert (a = b) as ->.
      { assert (In a (b :: l2)) as Ha
            by (eapply Permutation_in; [exact P | left; reflexivity]).
        assert (In b (a :: l1)) as Hb
            by (eapply Permutation_in;
                [apply Permutation_sym; exact P | left; reflexivity]).
        destruct Ha as [->|Ha]; auto. destruct Hb as [->|Hb]; auto.
        destruct (before_asym (A1 _ Hb) (A2 _ Ha)). }
      f_equal. apply IH; auto. eapply Permutation_cons_inv; eauto.
Qed.

(** X4. After the last record of a sender is deleted, the history of the
    sender is its former history without the first entry. *)
Theorem history_after_delete (number : str) (db : Database) :
  wf db ->
  user_history_rows number (fst (delete_last_user_record number db))
  = tl (user_history_rows number db)
  /\ get_user_history number (fst (delete_last_user_record number db))
     = tl (get_user_history number db).
Proof.
  intros Hwf.
  assert (user_history_rows number (fst (delete_last_user_record number db))
          = tl (user_history_rows number db)) as Hrows.
  { destruct (user_history_rows number db) as [|r rest] eqn:E.
    - rewrite (user_history_rows_empty _ _ E). simpl. exact E.
    - destruct (delete_last_user_record_split _ Hwf E)
        as (l1 & l2 & Hsplit & Hnum & Hdel).
      pose proof (wf_delete_last number Hwf) as Hwf'.
      rewrite Hdel in *. simpl fst in *. simpl tl.
      apply sorted_before_unique.
      + apply order_by_date_desc_sorted, StronglySorted_filter, Hwf'.
      + assert (StronglySorted before (r :: rest)) as Hs.
        { rewrite <- E.
          apply order_by_date_desc_sorted, StronglySorted_filter, Hwf. }
        inversion Hs; assumption.
      + unfold user_history_rows. simpl.
        rewrite order_by_date_desc_perm, where_whatsapp_number_app.
        apply Permutation_sym, Permutation_cons_app_inv with (a := r).
        rewrite <- E. unfold user_history_rows.
        rewrite order_by_date_desc_perm, Hsplit, where_whatsapp_number_app.
        simpl. replace (Str.eqb (whatsapp_number r) number) with true
          by (symmetry; apply str_eqb_eq; exact Hnum).
        reflexivity. }
  split; [exact Hrows|].
  unfold get_user_history. rewrite Hrows.
  destruct (user_history_rows number db); reflexivity.
Qed.

Lemma history_after_delete_witness :
  wf db_same_instant
  /\ get_user_history sender_a
       (fst (delete_last_user_record sender_a db_same_instant))
     = [(Datetime.adapt_datetime noon, Some (py "y"))].
Proof.
  assert (wf db_same_instant) as Hwf by (repeat apply wf_add; apply wf_empty).
  split; [exact Hwf|].
  destruct (history_after_delete sender_a Hwf) as [_ H].
  rewrite H. reflexivity.
Defined.

(** X5. A record stored later than every record of its sender is the one
    the deletion removes: record, then undo, gives back the rows of the
    table, and only the id counter has moved. *)
Theorem add_then_delete_restores
    (now : datetime) (number name : str) (title : option str) (db : Database) :
  wf db ->
  forallb (fun r => Str.ltb (date r) (Datetime.adapt_datetime now))
          (where_whatsapp_number number (participations db)) = true ->
  delete_last_user_record number (add_participation now number name title db)
  = (mkDatabase (participations db) (sqlite_sequence db + 1), true).
Proof.
  intros (_ & Hb & _) Hnew. unfold delete_last_user_record.
  rewrite (user_history_rows_add _ _ _ _ _ Hnew). simpl.
  f_equal. f_equal. unfold delete_where_id. rewrite filter_app. simpl.
  rewrite Z.eqb_refl. simpl. rewrite app_nil_r.
  apply forallb_filter_id. apply forallb_forall. intros x Hx.
  rewrite Forall_forall in Hb. specialize (Hb x Hx).
  apply negb_true_iff, Z.eqb_neq. lia.
Qed.

Lemma add_then_delete_restores_witness :
  wf db_ana_bia
  /\ forallb (fun r => Str.ltb (date r) (Datetime.adapt_datetime noon))
             (where_whatsapp_number sender_a (participations db_ana_bia)) = true
  /\ delete_last_user_record sender_a
       (add_participation noon sender_a ana None db_ana_bia)
     = (mkDatabase (participations db_ana_bia) 3, true).
Proof.
  assert (wf db_ana_bia) as Hwf by (repeat apply wf_add; apply wf_empty).
  split; [exact Hwf|]. split; [reflexivity|].
  apply (add_then_delete_restores noon sender_a ana None Hwf). reflexivity.
Defined.

(** * Reading stored dates back *)

Section ReadBack.

Import Decimal DecimalFacts.

(** Reading the digits of a numeral gives its value. *)
Lemma to_N_digits_acc n : forall d acc,
  nb_digits d = n ->
  fold_left (fun a c => (a * 10 + (c - 48))%N) (Str.digits_of_uint d) acc
  = (acc * 10 ^ DecimalPos.Unsigned.usize d + N.of_uint d)%N.
Proof.
  induction n as [|n IH]; intros d acc Hn.
  - apply nb_digits_0 in Hn. subst. simpl. lia.
  - assert (d <> Nil) as Hd by (intros ->; discriminate).
    rewrite (nb_digits_tl Hd) in Hn. injection Hn as Hn.
    rewrite (digits_cons Hd). cbn [fold_left]. rewrite (IH _ _ Hn).
    rewrite (of_uint_cons Hd).
    assert (DecimalPos.Unsigned.usize d
            = N.succ (DecimalPos.Unsigned.usize (DecimalPos.Unsigned.tl d)))
      as -> by (destruct d; try congruence; reflexivity).
    rewrite N.pow_succ_r'. pose proof (hd_le_9 d). nia.
Qed.

Lemma to_N_zfill w n : Str.to_N (Str.zfill w n) = n.
Proof.
  rewrite zfill_numeral. unfold Str.to_N.
  rewrite (@to_N_digits_acc _ _ 0%N eq_refl).
  rewrite of_uint_iter_D0, DecimalN.Unsigned.of_to. lia.
Qed.

Lemma zfill_forallb_digit w n : forallb Str.isdigit (Str.zfill w n) = true.
Proof. apply forallb_forall. intros c. apply zfill_digits. Qed.

Lemma take_digits_exact ds rest :
  forallb Str.isdigit ds = true ->
  Datetime.take_digits (length ds) (ds ++ rest) = (ds, rest).
Proof.
  induction ds as [|c ds IH]; simpl.
  - destruct rest; reflexivity.
  - rewrite andb_true_iff. intros [-> H]. rewrite (IH H). reflexivity.
Qed.

(** A field written with [w] digits is read back as its value. *)
Lemma field_zfill wmin w lo hi n rest :
  (1 <= w)%nat -> (wmin <= w)%nat ->
  (n < 10 ^ N.of_nat w)%N -> (lo <= n <= hi)%N ->
  Datetime.field wmin w lo hi (Str.zfill w n ++ rest) = Some (n, rest).
Proof.
  intros Hw Hmin Hn Hrange. unfold Datetime.field.
  pose proof (zfill_length Hw Hn) as Hlen.
  rewrite <- Hlen at 1.
  rewrite take_digits_exact by apply zfill_forallb_digit.
  rewrite Hlen, to_N_zfill.
  replace (wmin <=? w)%nat with true by (symmetry; apply Nat.leb_le; lia).
  replace (lo <=? n)%N with true by (symmetry; apply N.leb_le; lia).
  replace (n <=? hi)%N with true by (symmetry; apply N.leb_le; lia).
  reflexivity.
Qed.

Lemma isdigit_not_space c : Str.isdigit c = true -> Str.isspace c = false.
Proof.
  unfold Str.isdigit. rewrite andb_true_iff, !N.leb_le. intros [H1 H2].
  apply not_true_iff_false. unfold Str.isspace.
  rewrite !orb_true_iff, !andb_true_iff, !N.leb_le, !N.eqb_eq. lia.
Qed.

(** A text that [zfill] wrote begins with a digit. *)
Lemma zfill_head w n :
  (1 <= w)%nat -> (n < 10 ^ N.of_nat w)%N ->
  exists c t, Str.zfill w n = c :: t /\ Str.isdigit c = true.
Proof.
  intros Hw Hn. pose proof (zfill_length Hw Hn) as Hlen.
  pose proof (zfill_forallb_digit w n) as Hd.
  destruct (Str.zfill w n) as [|c t]; [simpl in Hlen; lia|].
  exists c, t. simpl in Hd. apply andb_true_iff in Hd. tauto.
Qed.

Lemma field_day_digit c s :
  Str.isdigit c = true ->
  Datetime.field_day (c :: s) = Datetime.field 1 2 1 31 (c :: s).
Proof.
  intros Hc. unfold Datetime.field_day.
  destruct (N.eq_dec c 32) as [->|Hne]; [discriminate|].
  destruct c as [|p]; auto.
  do 6 (destruct p as [p|p|]; auto). congruence.
Qed.

Lemma blanks_one_space c s :
  Str.isdigit c = true -> Datetime.blanks (py " " ++ c :: s) = Some (c :: s).
Proof.
  intros Hc. apply isdigit_not_space in Hc.
  change (py " " ++ c :: s) with (32%N :: c :: s).
  unfold Datetime.blanks. change (Str.isspace 32) with true. simpl.
  rewrite Hc. reflexivity.
Qed.

Lemma field_fraction_zfill n :
  (n < 10 ^ N.of_nat 6)%N ->
  Datetime.field_fraction (Str.zfill 6 n) = Some (n, []).
Proof.
  intros Hn. unfold Datetime.field_fraction.
  assert (1 <= 6)%nat as H6 by lia.
  pose proof (zfill_length H6 Hn) as Hlen.
  rewrite <- (List.app_nil_r (Str.zfill 6 n)) at 1. rewrite <- Hlen at 1.
  rewrite take_digits_exact by apply zfill_forallb_digit.
  rewrite Hlen. simpl repeat. rewrite List.app_nil_r, to_N_zfill.
  destruct (Str.zfill 6 n); [discriminate | reflexivity].
Qed.

Lemma valid_ranges d :
  Datetime.valid d = true ->
  (1 <= year d <= 9999 /\ 1 <= month d <= 12 /\ 1 <= day d <= 31
   /\ hour d <= 23 /\ minute d <= 59 /\ second d <= 59
   /\ microsecond d <= 999999)%N.
Proof.
  unfold Datetime.valid. rewrite !andb_true_iff, !N.leb_le.
  pose proof (days_in_month_le (year d) (month d)). lia.
Qed.

Lemma strptime_isoformat (d : datetime) :
  Datetime.valid d = true -> microsecond d <> 0%N ->
  Datetime.strptime (Datetime.isoformat d) = Some d.
Proof.
  intros Hv Hus.
  destruct (valid_bounds _ Hv) as (Yb & Mb & Db & hb & mb & sb & ub).
  destruct (valid_ranges _ Hv) as (Yr & Mr & Dr & hr & mr & sr & ur).
  unfold Datetime.isoformat, Datetime.strptime.
  apply N.eqb_neq in Hus. rewrite Hus.
  rewrite field_zfill by (auto; lia).
  change (Datetime.lit 45 (py "-" ++ ?x)) with (Some x).
  cbv beta iota.
  rewrite field_zfill by (auto; lia).
  cbv beta iota.
  destruct (@zfill_head 2 (day d)) as (c & t & E & Hc); auto.
  assert (Datetime.field_day
            (Str.zfill 2 (day d) ++ py " " ++ Str.zfill 2 (hour d) ++ py ":"
             ++ Str.zfill 2 (minute d) ++ py ":" ++ Str.zfill 2 (second d)
             ++ py "." ++ Str.zfill 6 (microsecond d))
          = Some (day d, py " " ++ Str.zfill 2 (hour d) ++ py ":"
                         ++ Str.zfill 2 (minute d) ++ py ":"
                         ++ Str.zfill 2 (second d)
                         ++ py "." ++ Str.zfill 6 (microsecond d))) as Hday.
  { rewrite E at 1. rewrite <- List.app_comm_cons.
    rewrite field_day_digit by exact Hc.
    rewrite List.app_comm_cons, <- E.
    apply field_zfill; auto; lia. }
  change (Datetime.lit 45 (py "-" ++ ?x)) with (Some x).
  cbv beta iota. rewrite Hday. cbv beta iota.
  destruct (@zfill_head 2 (hour d)) as (c' & t' & E' & Hc'); auto.
  assert (Datetime.blanks
            (py " " ++ Str.zfill 2 (hour d) ++ py ":"
             ++ Str.zfill 2 (minute d) ++ py ":" ++ Str.zfill 2 (second d)
             ++ py "." ++ Str.zfill 6 (microsecond d))
          = Some (Str.zfill 2 (hour d) ++ py ":"
                  ++ Str.zfill 2 (minute d) ++ py ":"
                  ++ Str.zfill 2 (second d)
                  ++ py "." ++ Str.zfill 6 (microsecond d))) as Hblank.
  { rewrite E'. rewrite <- List.app_comm_cons.
    apply blanks_one_space. exact Hc'. }
  rewrite Hblank. cbv beta iota.
  rewrite field_zfill by (auto; lia).
  change (Datetime.lit 58 (py ":" ++ ?x)) with (Some x). cbv beta iota.
  rewrite field_zfill by (auto; lia).
  change (Datetime.lit 58 (py ":" ++ ?x)) with (Some x). cbv beta iota.
  rewrite field_zfill by (auto; lia).
  change (Datetime.lit 46 (py "." ++ ?x)) with (Some x). cbv beta iota.
  rewrite field_fraction_zfill by exact ub.
  destruct d; simpl in *. rewrite Hv. reflexivity.
Qed.

(** X6. A valid instant with a microsecond that is not zero is read back
    from its stored text: the [strptime] of the handlers undoes the text
    that the INSERT stored, and a text read back is never that of another
    instant. *)
Theorem strptime_reads_stored_date (d : datetime) :
  Datetime.valid d = true -> microsecond d <> 0%N ->
  Datetime.strptime (Datetime.adapt_datetime d) = Some d
  /\ forall d', Datetime.valid d' = true -> microsecond d' <> 0%N ->
       Datetime.adapt_datetime d' = Datetime.adapt_datetime d -> d' = d.
Proof.
  intros Hv Hus. split; [apply strptime_isoformat; assumption|].
  intros d' Hv' Hus' E.
  pose proof (strptime_isoformat d Hv Hus) as H.
  pose proof (strptime_isoformat d' Hv' Hus') as H'.
  unfold Datetime.adapt_datetime in E. congruence.
Qed.

Lemma strptime_reads_stored_date_witness :
  Datetime.valid noon = true /\ microsecond noon <> 0%N
  /\ Datetime.strptime (Datetime.adapt_datetime noon) = Some noon.
Proof.
  assert (microsecond noon <> 0%N) as Hus by discriminate.
  split; [reflexivity|]. split; [exact Hus|].
  destruct (strptime_reads_stored_date noon eq_refl Hus) as [H _]. exact H.
Defined.

End ReadBack.

(** * Further properties of the handlers *)

(** X7. For valid clock readings the stored texts compare as the instants
    do, so ORDER BY on the column orders the records by time, and two
    instants are stored as the same text only when they are the same. *)
Theorem stored_dates_order_as_time (a b : datetime) :
  Datetime.valid a = true -> Datetime.valid b = true ->
  Str.compare (Datetime.adapt_datetime a) (Datetime.adapt_datetime b)
  = datetime_compare a b
  /\ (Datetime.adapt_datetime a = Datetime.adapt_datetime b <-> a = b).
Proof.
  intros Va Vb. unfold Datetime.adapt_datetime.
  split; [apply isoformat_compare; assumption|].
  rewrite <- str_compare_eq, (isoformat_compare a b Va Vb). split.
  - apply datetime_compare_eq.
  - intros ->. rewrite <- (isoformat_compare b b Vb Vb). apply str_compare_refl.
Qed.

Lemma stored_dates_order_as_time_witness :
  Datetime.valid on_the_second = true /\ Datetime.valid noon = true
  /\ Str.compare (Datetime.adapt_datetime on_the_second)
                 (Datetime.adapt_datetime noon) = Lt.
Proof.
  split; [reflexivity|]. split; [reflexivity|].
  destruct (stored_dates_order_as_time on_the_second noon eq_refl eq_refl)
    as [H _].
  rewrite H. reflexivity.
Defined.

Lemma filter_map_length (A B : Type) (f : A -> B) (p : B -> bool) l :
  length (filter p (map f l)) = length (filter (fun x => p (f x)) l).
Proof.
  induction l as [|a l IH]; simpl; auto.
  destruct (p (f a)); simpl; auto.
Qed.

(** X8. The rows of the report come in increasing order of the name,
    each name once; a row counts the records of the ledger that carry its
    name, and there is at least one. *)
Theorem report_rows_sorted_and_counted
    (display_date : str -> str) (df : list Row) (row : SummaryRow) :
  StronglySorted Str.lt (map group_name (report_summary display_date df))
  /\ (In row (report_summary display_date df) ->
      total_participations row
      = length (filter (fun r => Str.eqb (profile_name r) (group_name row)) df)
      /\ (1 <= total_participations row)%nat).
Proof.
  split.
  - unfold report_summary, groupby_profile_name. rewrite !map_map. simpl.
    rewrite map_id. apply group_keys_sorted.
  - intros Hrow. unfold report_summary, groupby_profile_name in Hrow.
    rewrite map_map in Hrow. apply in_map_iff in Hrow.
    destruct Hrow as (k & <- & Hk). simpl.
    rewrite length_map. unfold group_rows, format_dates.
    rewrite filter_map_length. simpl. split; [reflexivity|].
    apply group_keys_In in Hk. destruct Hk as (r & Hr & Hname).
    apply in_map_iff in Hr. destruct Hr as (r0 & <- & Hr0). simpl in Hname.
    assert (In r0 (filter (fun x => Str.eqb (profile_name x) k) df)) as Hin
      by (apply filter_In; split; [exact Hr0 | apply str_eqb_eq; exact Hname]).
    destruct (filter _ df); [contradiction | simpl; lia].
Qed.

Lemma report_rows_sorted_and_counted_witness :
  In (mkSummaryRow bia 1 (Datetime.isoformat noon) [])
     (report_summary stored_text (participations db_ana_bia))
  /\ total_participations (mkSummaryRow bia 1 (Datetime.isoformat noon) [])
     = length (filter (fun r => Str.eqb (profile_name r) bia)
                      (participations db_ana_bia)).
Proof.
  assert (In (mkSummaryRow bia 1 (Datetime.isoformat noon) [])
             (report_summary stored_text (participations db_ana_bia))) as Hin
    by (right; left; reflexivity).
  split; [exact Hin|].
  destruct (report_rows_sorted_and_counted stored_text
              (participations db_ana_bia)
              (mkSummaryRow bia 1 (Datetime.isoformat noon) [])) as [_ H].
  destruct (H Hin) as [Hcount _]. exact Hcount.
Defined.

Lemma split_at_first (c : N) u : forall v p q,
  ~ In c u -> ~ In c v -> u ++ c :: p = v ++ c :: q -> u = v /\ p = q.
Proof.
  induction u as [|a u IH]; intros [|b v] p q Hu Hv E; simpl in *.
  - injection E as ->. auto.
  - injection E as -> _. tauto.
  - injection E as -> _. tauto.
  - injection E as -> E. destruct (IH v p q) as [-> ->]; auto.
Qed.

Lemma split_at_last (c : N) a x b y :
  ~ In c x -> ~ In c y -> a ++ c :: x = b ++ c :: y -> a = b /\ x = y.
Proof.
  intros Hx Hy E. apply (f_equal (@rev N)) in E.
  rewrite !rev_app_distr in E. simpl in E. rewrite <- !app_assoc in E.
  simpl in E.
  apply split_at_first in E; try (rewrite <- in_rev; assumption).
  destruct E as [E1 E2].
  apply (f_equal (@rev N)) in E1, E2. rewrite !rev_involutive in E1, E2.
  auto.
Qed.

(** A file of the reports directory names its directory and its name. *)
Lemma reports_file_path_inj base1 base2 name1 name2 :
  in_dir base1 (py "reports/" ++ name1) = in_dir base2 (py "reports/" ++ name2) ->
  Str.contains 47%N name1 = false -> Str.contains 47%N name2 = false ->
  base1 = base2 /\ name1 = name2.
Proof.
  unfold in_dir. intros E H1 H2.
  apply contains_false in H1, H2.
  change (py "reports/") with (py "reports" ++ [47%N]) in E.
  rewrite <- !app_assoc in E. simpl ([47%N] ++ _) in E.
  rewrite !app_assoc in E.
  apply split_at_last in E; auto.
  destruct E as [E ->]. split; [|reflexivity].
  rewrite <- !app_assoc in E. apply app_inv_tail in E. exact E.
Qed.

Lemma filter_none (A : Type) (p : A -> bool) l :
  (forall x, In x l -> p x = false) -> filter p l = [].
Proof.
  induction l as [|a l IH]; simpl; intros H; auto.
  rewrite (H a) by auto. apply IH. auto.
Qed.

Section Handlers.

Variable lower : str -> str.
Variable to_datetime_strftime : list str -> option (str -> str).
Variable cfg : Config.

#[local] Abbreviation handle :=
  (whatsapp_webhook lower to_datetime_strftime cfg).
#[local] Abbreviation report :=
  (generate_and_send_report to_datetime_strftime cfg).

(** X9. A sender who is not the administrator cannot delete a record,
    start a report or have a file written: the messages sent and the files
    are as they were, and the table is as it was or has one more row, of
    that sender. *)
Theorem non_admin_only_records (now : datetime) (req : Request) (w : World) :
  is_admin cfg (get (From req) []) = false ->
  let w' := fst (handle now req w) in
  sent w' = sent w /\ files w' = files w
  /\ (database w' = database w
      \/ exists label,
           database w'
           = add_participation now (get (From req) [])
               (get (ProfileName req) (get (From req) [])) label (database w)).
Proof.
  intros Hadmin w'. unfold w', whatsapp_webhook. rewrite Hadmin.
  destruct (Str.startswith_any _ _).
  { simpl. repeat split; auto. right. eexists. reflexivity. }
  destruct (Str.eqb _ (py "/meu historico")).
  { destruct (get_user_history _ _); [simpl; auto|].
    destruct (history_lines _); simpl; auto. }
  destruct (Str.eqb _ (py "/ajuda")); simpl; auto.
Qed.

Lemma send_response_truthy m :
  Str.truthy m = true -> send_response m = Twiml m.
Proof. unfold send_response. intros ->. reflexivity. Qed.

Lemma truthy_app_l a b : Str.truthy a = true -> Str.truthy (a ++ b) = true.
Proof. destruct a; [discriminate | reflexivity]. Qed.

Lemma history_header_truthy name n rest :
  Str.truthy (history_header name n ++ rest) = true.
Proof.
  unfold history_header. rewrite <- !app_assoc. apply truthy_app_l.
  vm_compute. reflexivity.
Qed.

Lemma history_lines_of_rows (stored : Row -> datetime) rows :
  (forall r, In r rows -> Datetime.strptime (date r) = Some (stored r)) ->
  history_lines (map (fun r => (date r, video_title r)) rows)
  = Some (concat
            (map (fun r => py "- " ++ Datetime.strftime_dmY (stored r)
                           ++ history_title_info (video_title r) ++ nl)
                 rows)).
Proof.
  induction rows as [|r rows IH]; intros H; [reflexivity|].
  cbn [map history_lines concat].
  rewrite (H r) by (left; reflexivity).
  rewrite IH by (intros; apply H; right; assumption).
  rewrite <- !app_assoc. reflexivity.
Qed.

Lemma listing_lines_of_rows (stored : Row -> datetime) rows :
  (forall r, In r rows -> Datetime.strptime (date r) = Some (stored r)) ->
  listing_lines (map (fun r => (profile_name r, date r, video_title r)) rows)
  = Some (concat
            (map (fun r => py "- " ++ profile_name r ++ py " em "
                           ++ Datetime.strftime_dm_HM (stored r)
                           ++ listing_title_info (video_title r) ++ nl)
                 rows)).
Proof.
  induction rows as [|r rows IH]; intros H; [reflexivity|].
  cbn [map listing_lines concat].
  rewrite (H r) by (left; reflexivity).
  rewrite IH by (intros; apply H; right; assumption).
  rewrite <- !app_assoc. reflexivity.
Qed.

Lemma stored_at_fraction_strptime r t :
  stored_at_fraction r t -> Datetime.strptime (date r) = Some t.
Proof.
  intros (Hv & Hus & ->). apply strptime_isoformat; assumption.
Qed.

(** X10. When every record of the sender was stored from a valid clock
    reading with a microsecond that is not zero, "/meu historico" is
    answered and changes nothing: with no record by the "no
    participation" text, otherwise by the header with the number of the
    sender's records and one line per record, newest first, with the day
    the record was stored. *)
Theorem history_is_answered
    (now : datetime) (req : Request) (w : World) (stored : Row -> datetime) :
  lower (Str.strip (get (Body req) [])) = py "/meu historico" ->
  (forall r, In r (participations (database w)) ->
     whatsapp_number r = get (From req) [] -> stored_at_fraction r (stored r)) ->
  let from_number := get (From req) [] in
  let rows := user_history_rows from_number (database w) in
  handle now req w
  = (w,
     Twiml
       (match rows with
        | [] => py "Você ainda não tem nenhuma participação registrada."
        | _ :: _ =>
            history_header (get (ProfileName req) from_number)
              (length (where_whatsapp_number from_number
                         (participations (database w))))
            ++ concat
                 (map (fun r => py "- " ++ Datetime.strftime_dmY (stored r)
                                ++ history_title_info (video_title r) ++ nl)
                      rows)
        end)).
Proof.
  intros Hlower Hstored from_number rows.
  unfold whatsapp_webhook. rewrite Hlower.
  change (Str.startswith_any (py "/meu historico") record_triggers) with false.
  change (Str.eqb (py "/meu historico") (py "/meu historico")) with true.
  cbv iota. fold from_number. unfold get_user_history. fold rows.
  assert (forall r, In r rows -> Datetime.strptime (date r) = Some (stored r))
    as Hparse.
  { intros r Hr. apply stored_at_fraction_strptime.
    apply order_by_date_desc_In, where_whatsapp_number_In in Hr.
    destruct Hr as [Hin Hnum]. apply Hstored; assumption. }
  assert (length rows
          = length (where_whatsapp_number from_number
                      (participations (database w)))) as Hlen
    by apply Permutation_length, order_by_date_desc_perm.
  rewrite (history_lines_of_rows stored rows Hparse), length_map, Hlen.
  clear Hlen Hparse.
  destruct rows as [|r rest]; cbn [map].
  - rewrite send_response_truthy by (vm_compute; reflexivity). reflexivity.
  - rewrite send_response_truthy by apply history_header_truthy. reflexivity.
Qed.

(** X11. When every record among the ten latest was stored from a valid
    clock reading with a microsecond that is not zero, the administrator's
    "/ultimos registros" is answered and changes nothing: one line per
    listed record, newest first, with its name and the day and minute it
    was stored. *)
Theorem listing_is_answered
    (now : datetime) (req : Request) (w : World) (stored : Row -> datetime) :
  lower (Str.strip (get (Body req) [])) = py "/ultimos registros" ->
  is_admin cfg (get (From req) []) = true ->
  (forall r, In r (last_10_rows (database w)) ->
     stored_at_fraction r (stored r)) ->
  handle now req w
  = (w,
     Twiml
       (match last_10_rows (database w) with
        | [] => py "Nenhum registro encontrado."
        | _ :: _ =>
            py "*Últimos 10 Registros*:" ++ nl ++ nl
            ++ concat
                 (map (fun r => py "- " ++ profile_name r ++ py " em "
                                ++ Datetime.strftime_dm_HM (stored r)
                                ++ listing_title_info (video_title r) ++ nl)
                      (last_10_rows (database w)))
        end)).
Proof.
  intros Hlower Hadmin Hstored.
  unfold whatsapp_webhook. rewrite Hlower, Hadmin.
  change (Str.startswith_any (py "/ultimos registros") record_triggers)
    with false.
  change (Str.eqb (py "/ultimos registros") (py "/meu historico")) with false.
  change (Str.eqb (py "/ultimos registros") (py "/ajuda")) with false.
  change (Str.eqb (py "/ultimos registros") (py "/relatorio agora")) with false.
  change (Str.eqb (py "/ultimos registros") (py "/ultimos registros")) with true.
  cbv iota. unfold get_last_10_records.
  assert (forall r, In r (last_10_rows (database w)) ->
            Datetime.strptime (date r) = Some (stored r)) as Hparse
    by (intros r Hr; apply stored_at_fraction_strptime, Hstored, Hr).
  rewrite (listing_lines_of_rows stored _ Hparse). clear Hparse Hstored.
  destruct (last_10_rows (database w)) as [|r rest]; cbn [map].
  - rewrite send_response_truthy by (vm_compute; reflexivity). reflexivity.
  - rewrite send_response_truthy
      by (apply truthy_app_l; vm_compute; reflexivity).
    reflexivity.
Qed.

(** A text that begins with "/corrigir ultimo" is none of the other
    commands. *)
Lemma fix_last_prefix_excludes m :
  Str.startswith m (py "/corrigir ultimo") = true ->
  Str.startswith_any m record_triggers = false
  /\ Str.eqb m (py "/meu historico") = false
  /\ Str.eqb m (py "/ajuda") = false
  /\ Str.eqb m (py "/relatorio agora") = false
  /\ Str.eqb m (py "/ultimos registros") = false.
Proof.
  intros H. destruct (startswith_app _ _ H) as (rest & ->).
  repeat split; reflexivity.
Qed.

(** X12. The administrator's "/corrigir ultimo" with at most two parts
    deletes the administrator's own latest record and nothing else: with
    no record of the administrator the world is as it was and the answer
    says so; otherwise exactly one row, of the administrator and of the
    latest date, leaves the table, and the answer confirms it. *)
Theorem admin_fix_last_deletes_own_record
    (now : datetime) (req : Request) (w : World) :
  let msg_lower := lower (Str.strip (get (Body req) [])) in
  let from_number := get (From req) [] in
  let own := where_whatsapp_number from_number (participations (database w)) in
  wf (database w) ->
  is_admin cfg from_number = true ->
  Str.startswith msg_lower (py "/corrigir ultimo") = true ->
  (length (Str.split_ws msg_lower) <= 2)%nat ->
  (own = [] ->
   handle now req w
   = (w, Twiml (py "❌ Você não possui registros para corrigir.")))
  /\ (own <> [] ->
      exists r l1 l2,
        participations (database w) = l1 ++ r :: l2
        /\ whatsapp_number r = from_number
        /\ newest_in r own
        /\ handle now req w
           = (mkWorld (mkDatabase (l1 ++ l2) (sqlite_sequence (database w)))
                      (sent w) (files w),
              Twiml (py "✅ Seu último registro de participação foi removido. Por favor, registre novamente se necessário."))).
Proof.
  intros msg_lower from_number own Hwf Hadmin Hprefix Hparts.
  destruct (fix_last_prefix_excludes _ Hprefix) as (H1 & H2 & H3 & H4 & H5).
  assert ((2 <? length (Str.split_ws msg_lower))%nat = false) as Hp
    by (apply Nat.ltb_ge; exact Hparts).
  assert (handle now req w
          = let (db', deleted) :=
              delete_last_user_record from_number (database w) in
            if deleted
            then (set_database db' w,
                  Twiml (py "✅ Seu último registro de participação foi removido. Por favor, registre novamente se necessário."))
            else (w, Twiml (py "❌ Você não possui registros para corrigir.")))
    as Hhandle.
  { unfold whatsapp_webhook. fold msg_lower from_number.
    rewrite H1, H2, H3, Hadmin, H4, H5, Hprefix, Hp.
    destruct (delete_last_user_record from_number (database w)) as [db' [|]];
      rewrite send_response_truthy by (vm_compute; reflexivity); reflexivity. }
  rewrite Hhandle. clear Hhandle.
  assert (Permutation (user_history_rows from_number (database w)) own)
    as Hperm by apply order_by_date_desc_perm.
  destruct (user_history_rows from_number (database w)) as [|r rest] eqn:E.
  - apply Permutation_nil in Hperm. split; [|congruence].
    intros _. rewrite (user_history_rows_empty _ _ E). reflexivity.
  - split.
    + intros Hown. rewrite Hown in Hperm.
      apply Permutation_sym, Permutation_nil in Hperm. discriminate.
    + intros _.
      destruct (user_history_rows_hd _ Hwf E) as (_ & _ & Hnew & _).
      destruct (delete_last_user_record_split _ Hwf E)
        as (l1 & l2 & Hsplit & Hnum & Hdel).
      exists r, l1, l2. rewrite Hdel. repeat split; auto.
Qed.

Lemma read_file_filter_other path q fs :
  path <> q ->
  read_file path (filter (fun f => negb (Str.eqb (fst f) q)) fs)
  = read_file path fs.
Proof.
  intros Hne. induction fs as [|[p c] fs IH]; simpl; auto.
  destruct (Str.eqb p q) eqn:Eq; simpl.
  - apply str_eqb_eq in Eq. subst p.
    replace (Str.eqb q path) with false
      by (symmetry; apply str_eqb_neq; congruence).
    exact IH.
  - rewrite IH. reflexivity.
Qed.

(** X13. A report run on a ledger that is not empty, when line 126 reads
    the dates, leaves the table as it was and sends one message, to the
    administrator, that ends in the link to the spreadsheet; under the
    working directory each of the two export paths then holds one file,
    the table of this run (the file of an earlier run is replaced), and
    every other file is as it was.  The route of the report files looks
    under the root path of the application: it serves this table when the
    process runs in that directory, and otherwise what it served
    before. *)
Theorem report_run_effects
    (request : option Request) (on_demand : bool) (w : World)
    (display_date : str -> str) :
  participations (database w) <> [] ->
  to_datetime_strftime (map participation_date (participations (database w)))
  = Some display_date ->
  let summary := report_summary display_date (participations (database w)) in
  let base_url :=
    match request with
    | Some r => host_url r
    | None => py "https://SEU_USUARIO.pythonanywhere.com/"
    end in
  exists w',
    report request on_demand w = Completed w'
    /\ database w' = database w
    /\ sent w'
       = sent w ++ [mkMessage (TWILIO_PHONE_NUMBER cfg)
                              (summary_message base_url summary)
                              (ADMIN_PHONE_NUMBER cfg)]
    /\ (exists text,
          summary_message base_url summary
          = text ++ base_url ++ py "reports/relatorio_participacao.xlsx")
    /\ read_file (in_dir (cwd cfg) report_path_xlsx) (files w')
       = Some (XlsxFile summary)
    /\ read_file (in_dir (cwd cfg) report_path_csv) (files w')
       = Some (CsvFile summary)
    /\ (forall path,
          path <> in_dir (cwd cfg) report_path_csv ->
          path <> in_dir (cwd cfg) report_path_xlsx ->
          read_file path (files w') = read_file path (files w))
    /\ length (filter (fun f => Str.eqb (fst f) (in_dir (cwd cfg) report_path_csv))
                      (files w')) = 1%nat
    /\ length (filter (fun f => Str.eqb (fst f) (in_dir (cwd cfg) report_path_xlsx))
                      (files w')) = 1%nat
    /\ (root_path cfg = cwd cfg ->
        serve_report cfg (py "relatorio_participacao.xlsx") w'
        = FileBody (XlsxFile summary)
        /\ serve_report cfg (py "relatorio_participacao.csv") w'
           = FileBody (CsvFile summary))
    /\ (root_path cfg <> cwd cfg ->
        forall filename,
          serve_report cfg filename w' = serve_report cfg filename w).
Proof.
  clear lower.
  intros Hne Hread summary base_url.
  pose proof (@report_run_completed display_date to_datetime_strftime cfg
                request on_demand w Hne Hread) as Hrun.
  cbv zeta in Hrun. fold summary base_url in Hrun.
  set (csv := in_dir (cwd cfg) report_path_csv) in *.
  set (xlsx := in_dir (cwd cfg) report_path_xlsx) in *.
  assert (csv <> xlsx) as Hneq.
  { unfold csv, xlsx, in_dir. intros E.
    apply app_inv_head in E. apply app_inv_head in E.
    vm_compute in E. discriminate. }
  assert (Str.eqb csv xlsx = false) as Hcx by (apply str_eqb_neq; exact Hneq).
  assert (Str.eqb xlsx csv = false) as Hxc
    by (apply str_eqb_neq; congruence).
  eexists. split; [exact Hrun|].
  unfold messages_create, write_file. cbn [database sent files].
  assert (read_file xlsx
            ((xlsx, XlsxFile summary)
             :: filter (fun f => negb (Str.eqb (fst f) xlsx))
                  ((csv, CsvFile summary)
                   :: filter (fun f => negb (Str.eqb (fst f) csv)) (files w)))
          = Some (XlsxFile summary)) as Rx
    by (cbn [read_file]; rewrite str_eqb_refl; reflexivity).
  assert (read_file csv
            ((xlsx, XlsxFile summary)
             :: filter (fun f => negb (Str.eqb (fst f) xlsx))
                  ((csv, CsvFile summary)
                   :: filter (fun f => negb (Str.eqb (fst f) csv)) (files w)))
          = Some (CsvFile summary)) as Rc.
  { cbn [read_file]. rewrite Hxc. cbn [filter fst]. rewrite Hcx. cbn [negb].
    cbn [read_file]. rewrite str_eqb_refl. reflexivity. }
  assert (forall path, path <> csv -> path <> xlsx ->
            read_file path
              ((xlsx, XlsxFile summary)
               :: filter (fun f => negb (Str.eqb (fst f) xlsx))
                    ((csv, CsvFile summary)
                     :: filter (fun f => negb (Str.eqb (fst f) csv)) (files w)))
            = read_file path (files w)) as Ro.
  { intros path Hc Hx. cbn [read_file].
    replace (Str.eqb xlsx path) with false
      by (symmetry; apply str_eqb_neq; congruence).
    cbn [filter fst]. rewrite Hcx. cbn [negb read_file].
    replace (Str.eqb csv path) with false
      by (symmetry; apply str_eqb_neq; congruence).
    rewrite !read_file_filter_other by assumption. reflexivity. }
  split; [reflexivity|]. split; [reflexivity|].
  split.
  { unfold summary_message. eexists. rewrite !app_assoc. reflexivity. }
  split; [exact Rx|]. split; [exact Rc|]. split; [exact Ro|].
  split.
  { set (F := filter (fun f => negb (Str.eqb (fst f) csv)) (files w)).
    cbn [filter fst]. rewrite Hxc, Hcx. cbn [negb filter fst].
    rewrite str_eqb_refl. cbn [length].
    rewrite filter_none; [reflexivity|].
    intros x Hx. apply filter_In in Hx. destruct Hx as [Hx _].
    subst F. apply filter_In in Hx. destruct Hx as [_ Hx].
    apply negb_true_iff in Hx. exact Hx. }
  split.
  { set (T := filter (fun f => negb (Str.eqb (fst f) xlsx)) _).
    cbn [filter fst]. rewrite str_eqb_refl. cbn [length].
    rewrite filter_none; [reflexivity|].
    intros x Hx. subst T. apply filter_In in Hx. destruct Hx as [_ Hx].
    apply negb_true_iff in Hx. exact Hx. }
  split.
  - intros Hroot. unfold serve_report. rewrite Hroot.
    replace (Str.contains 47 (py "relatorio_participacao.xlsx")
             || Str.eqb (py "relatorio_participacao.xlsx") (py ".")
             || Str.eqb (py "relatorio_participacao.xlsx") (py "..")
             || negb (Str.truthy (py "relatorio_participacao.xlsx")))
      with false by (vm_compute; reflexivity).
    replace (Str.contains 47 (py "relatorio_participacao.csv")
             || Str.eqb (py "relatorio_participacao.csv") (py ".")
             || Str.eqb (py "relatorio_participacao.csv") (py "..")
             || negb (Str.truthy (py "relatorio_participacao.csv")))
      with false by (vm_compute; reflexivity).
    replace (py "reports/" ++ py "relatorio_participacao.xlsx")
      with report_path_xlsx by (vm_compute; reflexivity).
    replace (py "reports/" ++ py "relatorio_participacao.csv")
      with report_path_csv by (vm_compute; reflexivity).
    fold csv xlsx. cbn [files]. rewrite Rx, Rc. split; reflexivity.
  - intros Hroot filename. unfold serve_report.
    destruct (Str.contains 47 filename || Str.eqb filename (py ".")
              || Str.eqb filename (py "..") || negb (Str.truthy filename))
      eqn:Hname; [reflexivity|].
    assert (Str.contains 47 filename = false) as Hslash.
    { apply orb_false_iff in Hname. destruct Hname as [Hname _].
      apply orb_false_iff in Hname. destruct Hname as [Hname _].
      apply orb_false_iff in Hname. destruct Hname as [Hname _].
      exact Hname. }
    cbn [files]. rewrite Ro; [reflexivity| |]; unfold csv, xlsx; intros E.
    + replace report_path_csv
        with (py "reports/" ++ py "relatorio_participacao.csv") in E
        by (vm_compute; reflexivity).
      destruct (reports_file_path_inj _ _ _ _ E Hslash) as [Hb _];
        [vm_compute; reflexivity | exact (Hroot Hb)].
    + replace report_path_xlsx
        with (py "reports/" ++ py "relatorio_participacao.xlsx") in E
        by (vm_compute; reflexivity).
      destruct (reports_file_path_inj _ _ _ _ E Hslash) as [Hb _];
        [vm_compute; reflexivity | exact (Hroot Hb)].
Qed.

(** X14. Whatever the message, the webhook keeps the table well formed:
    the ids stay unique and in increasing order, none above the id
    counter. *)
Theorem webhook_keeps_ids_unique (now : datetime) (req : Request) (w : World) :
  wf (database w) ->
  wf (database (fst (handle now req w)))
  /\ NoDup (map id (participations (database (fst (handle now req w))))).
Proof.
  intros H.
  assert (wf (database (fst (handle now req w)))) as Hwf.
  { unfold whatsapp_webhook.
    destruct (Str.startswith_any _ _); [apply wf_add, H|].
    destruct (Str.eqb _ (py "/meu historico")).
    { destruct (get_user_history _ _); [exact H|].
      destruct (history_lines _); exact H. }
    destruct (Str.eqb _ (py "/ajuda")); [exact H|].
    destruct (is_admin cfg _); [|exact H].
    destruct (Str.eqb _ (py "/relatorio agora")).
    { destruct (report (Some req) true w) as [w'|] eqn:E; [|exact H].
      simpl. rewrite (generate_and_send_report_database _ _ _ _ _ E). exact H. }
    destruct (Str.eqb _ (py "/ultimos registros")).
    { destruct (get_last_10_records _); [exact H|].
      destruct (listing_lines _); exact H. }
    destruct (Str.startswith _ (py "/corrigir ultimo")); [|exact H].
    destruct (2 <? _)%nat; [exact H|].
    pose proof (wf_delete_last (get (From req) []) H) as Hd.
    destruct (delete_last_user_record _ _) as [db' [|]]; simpl in *; auto. }
  split; [exact Hwf | apply sorted_ids_NoDup, Hwf].
Qed.

End Handlers.
Lemma non_admin_only_records_witness :
  is_admin config_bia (get (From req_participei) []) = false
  /\ sent (fst (whatsapp_webhook ascii_lower pandas_dates config_bia noon
                  req_participei world_ana_bia)) = sent world_ana_bia
  /\ files (fst (whatsapp_webhook ascii_lower pandas_dates config_bia noon
                   req_participei world_ana_bia)) = files world_ana_bia.
Proof.
  split; [reflexivity|].
  destruct (@non_admin_only_records ascii_lower pandas_dates config_bia noon
              req_participei world_ana_bia eq_refl) as (Hs & Hf & _).
  split; assumption.
Defined.

Lemma history_is_answered_witness :
  ascii_lower (Str.strip (get (Body req_history) [])) = py "/meu historico"
  /\ (forall r, In r (participations (database world_ana_bia)) ->
        whatsapp_number r = get (From req_history) [] ->
        stored_at_fraction r morning)
  /\ exists reply,
       whatsapp_webhook ascii_lower pandas_dates config_bia noon req_history
         world_ana_bia = (world_ana_bia, Twiml reply).
Proof.
  assert (forall r, In r (participations (database world_ana_bia)) ->
            whatsapp_number r = get (From req_history) [] ->
            stored_at_fraction r morning) as Hstored.
  { intros r [<-|[<-|[]]] Hnum.
    - repeat split. discriminate.
    - vm_compute in Hnum. discriminate. }
  split; [reflexivity|]. split; [exact Hstored|].
  eexists.
  apply (@history_is_answered ascii_lower pandas_dates config_bia noon
           req_history world_ana_bia (fun _ => morning) eq_refl Hstored).
Defined.

Lemma listing_is_answered_witness :
  ascii_lower (Str.strip (get (Body req_listing) [])) = py "/ultimos registros"
  /\ is_admin config_bia (get (From req_listing) []) = true
  /\ exists reply,
       whatsapp_webhook ascii_lower pandas_dates config_bia noon req_listing
         world_ana_bia = (world_ana_bia, Twiml reply).
Proof.
  split; [reflexivity|]. split; [reflexivity|].
  assert (forall r, In r (last_10_rows (database world_ana_bia)) ->
            stored_at_fraction r (if (id r =? 1)%Z then morning else noon))
    as Hstored.
  { intros r Hr.
    assert (last_10_rows (database world_ana_bia)
            = [mkRow 2 sender_b bia (Datetime.adapt_datetime noon) None;
               mkRow 1 sender_a ana (Datetime.adapt_datetime morning)
                     (Some (py "x"))]) as E by (vm_compute; reflexivity).
    rewrite E in Hr. destruct Hr as [<-|[<-|[]]]; repeat split; discriminate. }
  eexists.
  apply (@listing_is_answered ascii_lower pandas_dates config_bia noon
           req_listing world_ana_bia
           (fun r => if (id r =? 1)%Z then morning else noon)
           eq_refl eq_refl Hstored).
Defined.

Lemma admin_fix_last_deletes_own_record_witness :
  wf (database world_ana_bia)
  /\ is_admin config_bia sender_b = true
  /\ exists r l1 l2,
       participations (database world_ana_bia) = l1 ++ r :: l2
       /\ whatsapp_number r = sender_b
       /\ fst (whatsapp_webhook ascii_lower pandas_dates config_bia noon
                 (request_of (py "/corrigir ultimo") sender_b bia)
                 world_ana_bia)
          = mkWorld (mkDatabase (l1 ++ l2) 2) [] [].
Proof.
  assert (wf (database world_ana_bia)) as Hwf
    by (repeat apply wf_add; apply wf_empty).
  split; [exact Hwf|]. split; [reflexivity|].
  assert (length (Str.split_ws
                    (ascii_lower
                       (Str.strip
                          (get (Body (request_of (py "/corrigir ultimo")
                                        sender_b bia)) [])))) <= 2)%nat
    as Hparts by (vm_compute; lia).
  destruct (@admin_fix_last_deletes_own_record ascii_lower pandas_dates
              config_bia noon
              (request_of (py "/corrigir ultimo") sender_b bia)
              world_ana_bia Hwf eq_refl eq_refl Hparts) as [_ Hsome].
  destruct Hsome as (r & l1 & l2 & Hsplit & Hnum & _ & Hres).
  - vm_compute. discriminate.
  - exists r, l1, l2. rewrite Hres. repeat split; assumption.
Defined.

Lemma report_run_effects_witness :
  participations (database world_ana_bia) <> []
  /\ pandas_dates (map participation_date
                     (participations (database world_ana_bia)))
     = Some (display_as true)
  /\ (exists w',
        generate_and_send_report pandas_dates config_bia None false
          world_ana_bia = Completed w'
        /\ serve_report config_bia (py "relatorio_participacao.xlsx") w'
           = FileBody
               (XlsxFile (report_summary (display_as true)
                            (participations (database world_ana_bia)))))
  /\ root_path config_elsewhere <> cwd config_elsewhere
  /\ (exists w',
        generate_and_send_report pandas_dates config_elsewhere None false
          world_ana_bia = Completed w'
        /\ serve_report config_elsewhere (py "relatorio_participacao.xlsx") w'
           = NotFound404).
Proof.
  assert (participations (database world_ana_bia) <> []) as Hne
    by discriminate.
  assert (pandas_dates (map participation_date
                          (participations (database world_ana_bia)))
          = Some (display_as true)) as Hread.
  { apply (@pandas_dates_some (Datetime.adapt_datetime morning)
             [Datetime.adapt_datetime noon] true); vm_compute; reflexivity. }
  assert (root_path config_elsewhere <> cwd config_elsewhere) as Hroot
    by (vm_compute; discriminate).
  split; [exact Hne|]. split; [exact Hread|]. split; [|split; [exact Hroot|]].
  - pose proof (@report_run_effects pandas_dates config_bia None false
                  world_ana_bia (display_as true) Hne Hread) as H.
    cbv zeta in H.
    destruct H as (w' & Hrun & _ & _ & _ & _ & _ & _ & _ & _ & Hx & _).
    exists w'. split; [exact Hrun|].
    destruct (Hx eq_refl) as [Hxlsx _]. exact Hxlsx.
  - pose proof (@report_run_effects pandas_dates config_elsewhere None false
                  world_ana_bia (display_as true) Hne Hread) as H.
    cbv zeta in H.
    destruct H as (w' & Hrun & _ & _ & _ & _ & _ & _ & _ & _ & _ & Hkeep).
    exists w'. split; [exact Hrun|].
    rewrite (Hkeep Hroot). vm_compute. reflexivity.
Defined.

Lemma webhook_keeps_ids_unique_witness :
  wf (database world_ana_bia)
  /\ NoDup (map id
              (participations
                 (database
                    (fst (whatsapp_webhook ascii_lower pandas_dates config_bia
                            noon req_participei world_ana_bia))))).
Proof.
  assert (wf (database world_ana_bia)) as Hwf
    by (repeat apply wf_add; apply wf_empty).
  split; [exact Hwf|].
  destruct (@webhook_keeps_ids_unique ascii_lower pandas_dates config_bia noon
              req_participei world_ana_bia Hwf) as [_ H]. exact H.
Defined.

Section ReportNow.

Variable lower : str -> str.
Variable to_datetime_strftime : list str -> option (str -> str).
Variable cfg : Config.

(** X15. The administrator's "/relatorio agora" starts a report run, with
    the host of the request for the link.  When the run completes (the
    ledger is empty, or line 126 reads the dates) the answer is the empty
    204 answer, never a message of the webhook itself, the table is as it
    was and exactly one message has been sent, from the Twilio number to
    the administrator.  When line 126 raises, the answer is the error
    answer and nothing is sent, written or changed. *)
Theorem report_now_sends_one_message
    (now : datetime) (req : Request) (w : World) :
  lower (Str.strip (get (Body req) [])) = py "/relatorio agora" ->
  is_admin cfg (get (From req) []) = true ->
  let result := whatsapp_webhook lower to_datetime_strftime cfg now req w in
  let rows := participations (database w) in
  ((rows = [] \/ to_datetime_strftime (map participation_date rows) <> None) ->
   snd result = NoContent204
   /\ generate_and_send_report to_datetime_strftime cfg (Some req) true w
      = Completed (fst result)
   /\ database (fst result) = database w
   /\ exists m, sent (fst result) = sent w ++ [m]
                /\ to m = ADMIN_PHONE_NUMBER cfg
                /\ from_ m = TWILIO_PHONE_NUMBER cfg)
  /\ (rows <> [] -> to_datetime_strftime (map participation_date rows) = None ->
      result = (w, InternalServerError)).
Proof.
  intros Hlower Hadmin result rows.
  assert (result
          = match generate_and_send_report to_datetime_strftime cfg
                    (Some req) true w with
            | Completed w' => (w', NoContent204)
            | RaisedValueError => (w, InternalServerError)
            end) as ->.
  { unfold result, whatsapp_webhook. rewrite Hlower, Hadmin.
    change (Str.startswith_any (py "/relatorio agora") record_triggers)
      with false.
    change (Str.eqb (py "/relatorio agora") (py "/meu historico")) with false.
    change (Str.eqb (py "/relatorio agora") (py "/ajuda")) with false.
    change (Str.eqb (py "/relatorio agora") (py "/relatorio agora")) with true.
    reflexivity. }
  unfold generate_and_send_report. fold rows.
  destruct rows as [|r rest] eqn:Erows.
  - split; [|congruence]. intros _. cbn [fst snd].
    split; [reflexivity|]. split; [reflexivity|]. split; [reflexivity|].
    eexists. repeat split.
  - destruct (to_datetime_strftime (map participation_date (r :: rest)))
      as [display_date|] eqn:Eread.
    + split; [|discriminate]. intros _. cbn [fst snd].
      split; [reflexivity|]. split; [reflexivity|]. split; [reflexivity|].
      eexists. repeat split.
    + split; [|reflexivity]. intros [Hnil|Hsome]; [discriminate | congruence].
Qed.

End ReportNow.

Lemma report_now_sends_one_message_witness :
  ascii_lower (Str.strip (get (Body req_report_now) [])) = py "/relatorio agora"
  /\ is_admin config_bia (get (From req_report_now) []) = true
  /\ pandas_dates (map participation_date
                     (participations (database world_ana_bia))) <> None
  /\ snd (whatsapp_webhook ascii_lower pandas_dates config_bia noon
            req_report_now world_ana_bia) = NoContent204
  /\ (exists m,
        sent (fst (whatsapp_webhook ascii_lower pandas_dates config_bia noon
                     req_report_now world_ana_bia)) = [m]
        /\ to m = Some sender_b)
  /\ pandas_dates (map participation_date
                     (participations (database world_mixed))) = None
  /\ whatsapp_webhook ascii_lower pandas_dates config_bia noon
       req_report_now world_mixed = (world_mixed, InternalServerError).
Proof.
  assert (pandas_dates (map participation_date
                          (participations (database world_ana_bia))) <> None)
    as Hread.
  { assert (pandas_dates (map participation_date
                            (participations (database world_ana_bia)))
            = Some (display_as true)) as ->; [|discriminate].
    apply (@pandas_dates_some (Datetime.adapt_datetime morning)
             [Datetime.adapt_datetime noon] true); vm_compute; reflexivity. }
  assert (pandas_dates (map participation_date
                          (participations (database world_mixed))) = None)
    as Hraise by (vm_compute; reflexivity).
  split; [reflexivity|]. split; [reflexivity|]. split; [exact Hread|].
  destruct (@report_now_sends_one_message ascii_lower pandas_dates config_bia
              noon req_report_now world_ana_bia eq_refl eq_refl)
    as [Hdone _].
  destruct (Hdone (or_intror Hread)) as (H204 & _ & _ & m & Hsent & Hto & _).
  split; [exact H204|]. split; [exists m; split; [exact Hsent | exact Hto]|].
  split; [exact Hraise|].
  destruct (@report_now_sends_one_message ascii_lower pandas_dates config_bia
              noon req_report_now world_mixed eq_refl eq_refl)
    as [_ Hfail].
  apply Hfail; [discriminate | exact Hraise].
Defined.
